(** * WatchDog: the Beagle watcher (watchdog/watcher.py)

    A shallow embedding of [Watcher]: the supervisor loop [watch_beagle],
    the progress-line parser [_parse_current_info], the ranged reader
    [current_vcf_lines], the window filter [split_out_current_window], the
    recovery loops [run] and [filter_window], and the properties of the
    design document that concern them.

    Conventions.  Text is [string] (8-bit characters; the model is of ASCII
    text).  A raised Python exception is the [Raise] case of [result].  The
    object's fields are the record [Watcher]; what lives outside the object
    (the file system, the spawned and the signalled processes) is the
    record [World], threaded explicitly. *)

From Stdlib Require Import ZArith QArith Qround String Ascii List Lia Lqa.
From Stdlib Require Import DecimalString DecimalZ.
From stdpp Require Import gmap strings.
Import ListNotations.

#[local] Open Scope string_scope.
#[local] Open Scope list_scope.
#[local] Open Scope Z_scope.

(** ** Exceptions and results *)

Inductive exn : Type :=
| BeagleTimeoutError
| BeagleHeapError
| TypeError
| ValueError
| IndexError
| AttributeError.

Inductive result (A : Type) : Type :=
| Ret (a : A)
| Raise (e : exn).

Arguments Ret {A} a.
Arguments Raise {A} e.

#[global] Instance result_ret : MRet result := fun _ a => Ret a.

#[global] Instance result_bind : MBind result := fun _ _ k r =>
  match r with
  | Ret a => k a
  | Raise e => Raise e
  end.

#[global] Instance result_fmap : FMap result := fun _ _ f r =>
  match r with
  | Ret a => Ret (f a)
  | Raise e => Raise e
  end.

(** ** Python's text primitives *)

Module Py.

(** [str.isspace] on ASCII: tab, LF, VT, FF, CR, FS, GS, RS, US, space. *)
Definition isspace (c : ascii) : bool :=
  let n := nat_of_ascii c in
  ((9 <=? n)%nat && (n <=? 13)%nat) || ((28 <=? n)%nat && (n <=? 32)%nat).

Definition isdigit (c : ascii) : bool :=
  let n := nat_of_ascii c in (48 <=? n)%nat && (n <=? 57)%nat.

Fixpoint lstrip (s : string) : string :=
  match s with
  | EmptyString => EmptyString
  | String c s' => if isspace c then lstrip s' else s
  end.

Fixpoint rstrip (s : string) : string :=
  match s with
  | EmptyString => EmptyString
  | String c s' =>
      match rstrip s' with
      | EmptyString => if isspace c then EmptyString else String c EmptyString
      | r => String c r
      end
  end.

(** [s.strip()] *)
Definition strip (s : string) : string := lstrip (rstrip s).

(** [s.startswith(p)] *)
Definition startswith (s p : string) : bool := String.prefix p s.

(** [s.split(sep)] for a one-character separator: never empty. *)
Fixpoint split (sep : ascii) (s : string) : list string :=
  match s with
  | EmptyString => [EmptyString]
  | String c s' =>
      if Ascii.eqb c sep then EmptyString :: split sep s'
      else match split sep s' with
           | [] => [String c EmptyString]
           | x :: xs => String c x :: xs
           end
  end.

(** [s.replace(c, '')] for a one-character [c]. *)
Fixpoint remove (c : ascii) (s : string) : string :=
  match s with
  | EmptyString => EmptyString
  | String a s' => if Ascii.eqb a c then remove c s' else String a (remove c s')
  end.

(** [l[i]], raising [IndexError] out of range (non-negative [i]). *)
Definition index {A : Type} (l : list A) (i : nat) : result A :=
  match nth_error l i with
  | Some x => Ret x
  | None => Raise IndexError
  end.

(** [str(n)] for an integer. *)
Definition str (n : Z) : string := NilZero.string_of_int (Z.to_int n).

(** [int(s)] on a decimal numeral with an optional minus sign.  Python
    also accepts surrounding whitespace, a plus sign and underscores
    between digits; on those the model raises where Python returns. *)
Definition int (s : string) : result Z :=
  match NilZero.int_of_string s with
  | Some d => Ret (Z.of_int d)
  | None => Raise ValueError
  end.

Definition newline : string := String "010"%char EmptyString.

(** [print(line, file=f)]: the text of [f] afterwards. *)
Definition print (line : string) (file : string) : string :=
  file +:+ line +:+ newline.

(** [for line in f]: the lines of a text, each with its terminator; a last
    line without one is yielded as it is. *)
Fixpoint readlines (text : string) : list string :=
  match text with
  | EmptyString => []
  | String c s' =>
      if Ascii.eqb c "010"%char then newline :: readlines s'
      else match readlines s' with
           | [] => [String c EmptyString]
           | x :: xs => String c x :: xs
           end
  end.

End Py.

(** ** Regular expressions of the progress grammar

    The three patterns of [_parse_current_info], matched the way [re.match]
    does (anchored at the start, greedy).  Every repetition in them is
    followed by a character outside its class, so the greedy match is the
    only candidate and no backtracking is needed. *)

Module Re.

(** The longest prefix of [s] whose characters satisfy [p], and the rest. *)
Fixpoint span (p : ascii -> bool) (s : string) : string * string :=
  match s with
  | EmptyString => (EmptyString, EmptyString)
  | String c s' =>
      if p c then let '(a, b) := span p s' in (String c a, b)
      else (EmptyString, s)
  end.

(** [lit p s]: [s] without its prefix [p], when it has it. *)
Fixpoint lit (p s : string) : option string :=
  match p, s with
  | EmptyString, _ => Some s
  | String a p', String b s' => if Ascii.eqb a b then lit p' s' else None
  | String _ _, EmptyString => None
  end.

(** One or more characters of a class. *)
Definition plus (p : ascii -> bool) (s : string) : option (string * string) :=
  match span p s with
  | (EmptyString, _) => None
  | r => Some r
  end.

(** [$]: the end of the text, or the newline that ends it. *)
Definition at_end (s : string) : bool :=
  match s with
  | EmptyString => true
  | String c EmptyString => Ascii.eqb c "010"%char
  | _ => false
  end.

Definition not_colon (c : ascii) : bool := negb (Ascii.eqb c ":"%char).

Definition digit_or_comma (c : ascii) : bool :=
  Py.isdigit c || Ascii.eqb c ","%char.

(** ['Window \d+ \(([^:]+):(\d+)-(\d+)\)'] : groups 1, 2 and 3. *)
Definition window (line : string) : option (string * string * string) :=
  r ← lit "Window " line;
  '(_, r) ← plus Py.isdigit r;
  r ← lit " (" r;
  '(chrom, r) ← plus not_colon r;
  r ← lit ":" r;
  '(start, r) ← plus Py.isdigit r;
  r ← lit "-" r;
  '(end_, r) ← plus Py.isdigit r;
  _ ← lit ")" r;
  Some (chrom, start, end_).

(** ['^Reference samples:\s+(\d+)$'] : group 1. *)
Definition reference_samples (line : string) : option string :=
  r ← lit "Reference samples:" line;
  '(_, r) ← plus Py.isspace r;
  '(n, r) ← plus Py.isdigit r;
  if at_end r then Some n else None.

(** ['^Study markers:\s+([,\d]+)$'] : group 1. *)
Definition study_markers (line : string) : option string :=
  r ← lit "Study markers:" line;
  '(_, r) ← plus Py.isspace r;
  '(n, r) ← plus digit_or_comma r;
  if at_end r then Some n else None.

End Re.

(** ** The data model *)

(** A locus of the external locus store ([lp.Locus]): what the filter hands
    over for each dropped record. *)
Record Locus : Type := mkLocus {
  chromosome : string;
  start : Z;
  end_ : Z;
  feature_type : string;
  source : string;
  name : option string;
  attrs : gmap string string
}.

(** The fields of a [Watcher] object.  [_current_vcf] is the text of the
    current dataset (compressed and indexed on assignment); [process] is the
    handle of the child (its number in [spawned]); [loci] is [None] when the
    object was built without a locus store. *)
Record Watcher : Type := mkWatcher {
  input_vcf : string;
  _current_vcf : string;
  out_prefix : string;
  heap_size : string;
  timeout : Z;
  check_every : Z;
  total_waiting : Z;
  num_reference_samples : option Z;
  cur_window_chrom : option string;
  cur_window_start : option Z;
  cur_window_end : option Z;
  cur_window_num_markers : option Z;
  fltr_field : string;
  fltr_field_type : string -> result Q;
  fltr_threshold : Q;
  process : option nat;
  loci : option (list Locus)
}.

(** Field assignments.  Assigning [current_vcf] compresses and indexes the
    file with the external toolkit, which leaves its text as it is. *)
Definition set_current_vcf (v_current_vcf : string) (w : Watcher) : Watcher :=
  {| input_vcf := input_vcf w; _current_vcf := v_current_vcf;
     out_prefix := out_prefix w; heap_size := heap_size w;
     timeout := timeout w; check_every := check_every w;
     total_waiting := total_waiting w;
     num_reference_samples := num_reference_samples w;
     cur_window_chrom := cur_window_chrom w;
     cur_window_start := cur_window_start w;
     cur_window_end := cur_window_end w;
     cur_window_num_markers := cur_window_num_markers w;
     fltr_field := fltr_field w; fltr_field_type := fltr_field_type w;
     fltr_threshold := fltr_threshold w; process := process w; loci := loci w |}.

Definition set_heap_size (v_heap_size : string) (w : Watcher) : Watcher :=
  {| input_vcf := input_vcf w; _current_vcf := _current_vcf w;
     out_prefix := out_prefix w; heap_size := v_heap_size;
     timeout := timeout w; check_every := check_every w;
     total_waiting := total_waiting w;
     num_reference_samples := num_reference_samples w;
     cur_window_chrom := cur_window_chrom w;
     cur_window_start := cur_window_start w;
     cur_window_end := cur_window_end w;
     cur_window_num_markers := cur_window_num_markers w;
     fltr_field := fltr_field w; fltr_field_type := fltr_field_type w;
     fltr_threshold := fltr_threshold w; process := process w; loci := loci w |}.

Definition set_total_waiting (v_total_waiting : Z) (w : Watcher) : Watcher :=
  {| input_vcf := input_vcf w; _current_vcf := _current_vcf w;
     out_prefix := out_prefix w; heap_size := heap_size w;
     timeout := timeout w; check_every := check_every w;
     total_waiting := v_total_waiting;
     num_reference_samples := num_reference_samples w;
     cur_window_chrom := cur_window_chrom w;
     cur_window_start := cur_window_start w;
     cur_window_end := cur_window_end w;
     cur_window_num_markers := cur_window_num_markers w;
     fltr_field := fltr_field w; fltr_field_type := fltr_field_type w;
     fltr_threshold := fltr_threshold w; process := process w; loci := loci w |}.

Definition set_num_reference_samples (v_num_reference_samples : option Z)
    (w : Watcher) : Watcher :=
  {| input_vcf := input_vcf w; _current_vcf := _current_vcf w;
     out_prefix := out_prefix w; heap_size := heap_size w;
     timeout := timeout w; check_every := check_every w;
     total_waiting := total_waiting w;
     num_reference_samples := v_num_reference_samples;
     cur_window_chrom := cur_window_chrom w;
     cur_window_start := cur_window_start w;
     cur_window_end := cur_window_end w;
     cur_window_num_markers := cur_window_num_markers w;
     fltr_field := fltr_field w; fltr_field_type := fltr_field_type w;
     fltr_threshold := fltr_threshold w; process := process w; loci := loci w |}.

Definition set_cur_window (v_cur_window_chrom : option string) (v_cur_window_start : option Z) (v_cur_window_end : option Z)
    (w : Watcher) : Watcher :=
  {| input_vcf := input_vcf w; _current_vcf := _current_vcf w;
     out_prefix := out_prefix w; heap_size := heap_size w;
     timeout := timeout w; check_every := check_every w;
     total_waiting := total_waiting w;
     num_reference_samples := num_reference_samples w;
     cur_window_chrom := v_cur_window_chrom;
     cur_window_start := v_cur_window_start;
     cur_window_end := v_cur_window_end;
     cur_window_num_markers := cur_window_num_markers w;
     fltr_field := fltr_field w; fltr_field_type := fltr_field_type w;
     fltr_threshold := fltr_threshold w; process := process w; loci := loci w |}.

Definition set_cur_window_num_markers (v_cur_window_num_markers : option Z)
    (w : Watcher) : Watcher :=
  {| input_vcf := input_vcf w; _current_vcf := _current_vcf w;
     out_prefix := out_prefix w; heap_size := heap_size w;
     timeout := timeout w; check_every := check_every w;
     total_waiting := total_waiting w;
     num_reference_samples := num_reference_samples w;
     cur_window_chrom := cur_window_chrom w;
     cur_window_start := cur_window_start w;
     cur_window_end := cur_window_end w;
     cur_window_num_markers := v_cur_window_num_markers;
     fltr_field := fltr_field w; fltr_field_type := fltr_field_type w;
     fltr_threshold := fltr_threshold w; process := process w; loci := loci w |}.

Definition set_process (v_process : option nat) (w : Watcher) : Watcher :=
  {| input_vcf := input_vcf w; _current_vcf := _current_vcf w;
     out_prefix := out_prefix w; heap_size := heap_size w;
     timeout := timeout w; check_every := check_every w;
     total_waiting := total_waiting w;
     num_reference_samples := num_reference_samples w;
     cur_window_chrom := cur_window_chrom w;
     cur_window_start := cur_window_start w;
     cur_window_end := cur_window_end w;
     cur_window_num_markers := cur_window_num_markers w;
     fltr_field := fltr_field w; fltr_field_type := fltr_field_type w;
     fltr_threshold := fltr_threshold w; process := v_process; loci := loci w |}.

Definition set_loci (v_loci : option (list Locus)) (w : Watcher) : Watcher :=
  {| input_vcf := input_vcf w; _current_vcf := _current_vcf w;
     out_prefix := out_prefix w; heap_size := heap_size w;
     timeout := timeout w; check_every := check_every w;
     total_waiting := total_waiting w;
     num_reference_samples := num_reference_samples w;
     cur_window_chrom := cur_window_chrom w;
     cur_window_start := cur_window_start w;
     cur_window_end := cur_window_end w;
     cur_window_num_markers := cur_window_num_markers w;
     fltr_field := fltr_field w; fltr_field_type := fltr_field_type w;
     fltr_threshold := fltr_threshold w; process := process w; loci := v_loci |}.

(** What the supervisor spawns: of [beagle_command], the heap option and the
    dataset; the other arguments are constants of the configuration. *)
Record command : Type := mkCommand {
  java_Xmx : string;
  gt : string
}.

(** The world outside the object: the paths that exist, the commands spawned
    so far (a child's handle is its position here) and the kill signals sent,
    in order. *)
Record World : Type := mkWorld {
  fs : gset string;
  spawned : list command;
  killed : list nat
}.

(** What one bounded read of the child's output can give, and what the child
    does in between: [Read line] is a completed [readline] (the empty text at
    the end of the stream), [TimeoutError] a wait that ran out after
    [check_every] seconds, [ChildWrites path] the child creating a file. *)
Inductive event : Type :=
| Read (line : string)
| TimeoutError
| ChildWrites (path : string).

(** The events of one invocation of the job. *)
Definition trace : Type := list event.

(** How a loop over a recorded trace ends: with a value, with an exception,
    or ([None]) still waiting where the record ends. *)
Definition outcome (A : Type) : Type := option (result A).

(** ** Line Grammar Parser and Window Tracker: [_parse_current_info] *)

Definition oom_marker : string := "ERROR: java.lang.OutOfMemoryError:".

(** A subscript on the match object, which is [None] when the pattern did
    not match. *)
Definition subscript {A : Type} (m : option A) : result A :=
  match m with
  | Some g => Ret g
  | None => Raise TypeError
  end.

Definition _parse_current_info (line : string) (w : Watcher) : result Watcher :=
  if Py.startswith line "Window" then
    '(chrom, s, e) ← subscript (Re.window line);
    s ← Py.int s;
    e ← Py.int e;
    Ret (set_cur_window (Some chrom) (Some s) (Some e) w)
  else if Py.startswith line "Reference samples:" then
    n ← subscript (Re.reference_samples line);
    n ← Py.int n;
    Ret (set_num_reference_samples (Some n) w)
  else if Py.startswith line "Study markers:" then
    n ← subscript (Re.study_markers line);
    n ← Py.int (Py.remove ","%char n);
    Ret (set_cur_window_num_markers (Some n) w)
  else if Py.startswith line oom_marker then
    Raise BeagleHeapError
  else
    Ret w.

(** ** Process Supervisor: [watch_beagle] *)

Definition beagle_command (w : Watcher) : command :=
  {| java_Xmx := "-Xmx" +:+ heap_size w; gt := _current_vcf w |}.

(** [asyncio.create_subprocess_exec]: the child's handle. *)
Definition create_subprocess_exec (cmd : command) (env : World) : nat * World :=
  (length (spawned env),
   {| fs := fs env; spawned := spawned env ++ [cmd]; killed := killed env |}).

(** [process.kill()] *)
Definition kill (p : nat) (env : World) : World :=
  {| fs := fs env; spawned := spawned env; killed := killed env ++ [p] |}.

(** [if os.path.exists(path): os.remove(path)] *)
Definition remove_if_exists (path : string) (env : World) : World :=
  if decide (path ∈ fs env)
  then {| fs := fs env ∖ {[path]}; spawned := spawned env; killed := killed env |}
  else env.

Definition child_writes (path : string) (env : World) : World :=
  {| fs := {[path]} ∪ fs env; spawned := spawned env; killed := killed env |}.

(** The handler entered when the stall counter reaches the threshold. *)
Definition on_stall (w : Watcher) (env : World) : World :=
  let env := match process w with
             | Some p => kill p env
             | None => env
             end in
  let env := remove_if_exists (out_prefix w +:+ ".vcf.gz") env in
  remove_if_exists (out_prefix w +:+ ".log") env.

(** The monitoring loop of [watch_beagle], one iteration per read. *)
Fixpoint watch_loop (events : trace) (w : Watcher) (env : World)
  : outcome bool * Watcher * World :=
  match events with
  | [] => (None, w, env)
  | ChildWrites path :: events' => watch_loop events' w (child_writes path env)
  | Read line :: events' =>
      match line with
      | EmptyString =>
          (* end of file: wait for the child, clear the handle *)
          (Some (Ret true), set_process None w, env)
      | _ =>
          match _parse_current_info line w with
          | Raise e => (Some (Raise e), w, env)
          | Ret w' => watch_loop events' (set_total_waiting 0 w') env
          end
      end
  | TimeoutError :: events' =>
      let w' := set_total_waiting (total_waiting w + check_every w) w in
      if timeout w' <=? total_waiting w'
      then (Some (Raise BeagleTimeoutError), w', on_stall w' env)
      else watch_loop events' w' env
  end.

Definition watch_beagle (events : trace) (w : Watcher) (env : World)
  : outcome bool * Watcher * World :=
  let '(p, env) := create_subprocess_exec (beagle_command w) env in
  watch_loop events (set_process (Some p) w) env.

(** [_sigint_handler]: the signals it sends and the exit status. *)
Definition _sigint_handler (w : Watcher) (env : World) : World * Z :=
  (match process w with
   | Some p => kill p env
   | None => env
   end, 1).

(** ** Record Stream Reader: [current_vcf_lines] *)

Definition tab : ascii := "009"%char.

(** A line without its terminator. *)
Fixpoint chomp (line : string) : string :=
  match line with
  | EmptyString => EmptyString
  | String c EmptyString =>
      if Ascii.eqb c "010"%char then EmptyString else line
  | String c s' => String c (chomp s')
  end.

(** Whether a record line lies in [chrom:start-end]; the end is open when
    [end_] is [None].  Records are point variants, as the source treats
    them (a dropped locus has [start = end = POS]). *)
Definition in_region (chrom : string) (start : Z) (end_ : option Z)
    (line : string) : bool :=
  match Py.split tab line with
  | c :: p :: _ =>
      String.eqb c chrom &&
      match Py.int p with
      | Ret pos => (start <=? pos) && from_option (Z.leb pos) true end_
      | Raise _ => false
      end
  | _ => false
  end.

(** The external toolkit's ranged query, [bcftools view [-H] vcf -r region]:
    the header lines unless suppressed, then the records of the region, in
    the order of the dataset.  Lines that are neither (blank or truncated
    ones) are outside the toolkit's contract; the model emits none of them. *)
Definition bcftools_view (vcf : string) (header : bool) (chrom : string)
    (start : Z) (end_ : option Z) : list string :=
  List.filter
    (fun line => if Py.startswith line "#" then header
                 else in_region chrom start end_ (chomp line))
    (Py.readlines vcf).

(** The [end] argument: a position, or the empty text (an open range). *)
Inductive end_arg : Type :=
| EndAt (e : Z)
| EndOpen.

Definition nonempty (s : string) : bool :=
  match s with
  | EmptyString => false
  | _ => true
  end.

Definition current_vcf_lines (w : Watcher) (chromosome : option string)
    (start : option Z) (end_ : option end_arg) (header : bool)
  : result (list string) :=
  (* if not specified, assume the current window *)
  let chromosome := match chromosome with
                    | Some c => Some c
                    | None => cur_window_chrom w
                    end in
  let start := match start with
               | Some s => Some s
               | None => cur_window_start w
               end in
  let end_ := match end_ with
              | Some e => Some e
              | None => EndAt <$> cur_window_end w
              end in
  (* make sure start is positive: max(0, None) is a TypeError *)
  start ← subscript start;
  let start := Z.max 0 start in
  let raw :=
    match end_ with
    | Some (EndAt e) =>
        bcftools_view (_current_vcf w) header
          (from_option id "None" chromosome) start (Some e)
    | Some EndOpen =>
        bcftools_view (_current_vcf w) header
          (from_option id "None" chromosome) start None
    | None => []   (* the region ends in the text None: the toolkit rejects it *)
    end in
  (* the read that meets the end of the stream returns the empty text *)
  let reads := raw ++ [EmptyString] in
  Ret (List.filter nonempty (map Py.strip reads)).

(** ** [np.quantile], linear interpolation

    The library's default method on a one-dimensional sample, in exact
    rational arithmetic: with the sample sorted, the cutoff lies at the
    virtual index [q * (n - 1)], between its two neighbours.  An empty
    sample has no quantile (recent releases raise [IndexError]); a [q]
    outside [0, 1] is a [ValueError]. *)

Module Np.

Fixpoint insert (x : Q) (l : list Q) : list Q :=
  match l with
  | [] => [x]
  | y :: l' => if Qle_bool x y then x :: l else y :: insert x l'
  end.

Definition sort (l : list Q) : list Q := foldr insert [] l.

Definition quantile (a : list Q) (q : Q) : result Q :=
  if negb (Qle_bool 0 q && Qle_bool q 1) then Raise ValueError
  else match a with
       | [] => Raise IndexError
       | _ =>
           let arr := sort a in
           let n := Z.of_nat (length a) in
           let virtual := (q * inject_Z (n - 1))%Q in
           let previous := Qfloor virtual in
           let next := Z.min (previous + 1) (n - 1) in
           let gamma := (virtual - inject_Z previous)%Q in
           let lo := nth (Z.to_nat previous) arr 0%Q in
           let hi := nth (Z.to_nat next) arr 0%Q in
           Ret (lo + (hi - lo) * gamma)%Q
       end.

End Np.

(** ** Window Filter: [split_out_current_window] *)

(** [k, v = x.split('=')]: exactly two parts, or a [ValueError]. *)
Definition unpack (x : string) : result (string * string) :=
  match Py.split "="%char x with
  | [k; v] => Ret (k, v)
  | _ => Raise ValueError
  end.

(** The inner loop over the attribute block of one record: the scores it
    appends. *)
Fixpoint info_scores (w : Watcher) (info_fields : list string) : result (list Q) :=
  match info_fields with
  | [] => Ret []
  | x :: rest =>
      '(k, v) ← unpack x;
      here ← (if String.eqb k (fltr_field w)
              then s ← fltr_field_type w v; Ret [s]
              else Ret []);
      more ← info_scores w rest;
      Ret (here ++ more)
  end.

(** [line.split('\t')[7].split(';')] *)
Definition info_fields (line : string) : result (list string) :=
  Py.split ";"%char <$> Py.index (Py.split tab line) 7.

(** The scores one record contributes. *)
Definition line_scores (w : Watcher) (line : string) : result (list Q) :=
  info_fields line ≫= info_scores w.

(** The first loop: header lines go to the file at once, the others to
    [lines], their scores to [scores]. *)
Fixpoint collect (w : Watcher) (input : list string)
    (file : string) (lines : list string) (scores : list Q)
  : result (string * list string * list Q) :=
  match input with
  | [] => Ret (file, lines, scores)
  | line :: input' =>
      if Py.startswith line "#"
      then collect w input' (Py.print line file) lines scores
      else
        here ← line_scores w line;
        collect w input' file (lines ++ [line]) (scores ++ here)
  end.

(** [locus[k] = v] for every attribute of the block. *)
Fixpoint set_attrs (info_fields : list string) (m : gmap string string)
  : result (gmap string string) :=
  match info_fields with
  | [] => Ret m
  | x :: rest => '(k, v) ← unpack x; set_attrs rest (<[k := v]> m)
  end.

(** The locus made of a dropped record. *)
Definition make_locus (w : Watcher) (line : string) : result Locus :=
  let v := take 8 (Py.split tab line) in
  chrom ← Py.index v 0;
  pos ← Py.index v 1 ≫= Py.int;
  id ← Py.index v 2;
  info ← Py.index v 7;
  a ← set_attrs (Py.split ";"%char info) ∅;
  Ret {| chromosome := chrom; start := pos; end_ := pos;
         feature_type := "SNP"; source := input_vcf w;
         name := if String.eqb id "." then None else Some id;
         attrs := a |}.

(** [self.loci.add_locus(locus)]; without a store the attribute is missing. *)
Definition add_locus (l : Locus) (w : Watcher) : result Watcher :=
  match loci w with
  | Some store => Ret (set_loci (Some (store ++ [l])) w)
  | None => Raise AttributeError
  end.

(** The second loop, over [zip(lines, scores)]. *)
Fixpoint partition_window (cutoff : Q) (pairs : list (string * Q))
    (file : string) (num_dropped : nat) (w : Watcher)
  : result (string * nat * Watcher) :=
  match pairs with
  | [] => Ret (file, num_dropped, w)
  | (line, score) :: pairs' =>
      if Qle_bool cutoff score
      then partition_window cutoff pairs' (Py.print line file) num_dropped w
      else
        locus ← make_locus w line;
        w' ← add_locus locus w;
        partition_window cutoff pairs' file (S num_dropped) w'
  end.

(** [split_out_current_window]: the text of the temporary file it returns,
    the count it logs, and the object afterwards. *)
Definition split_out_current_window (w : Watcher) : result (string * nat * Watcher) :=
  input ← current_vcf_lines w None None None true;
  '(file, lines, scores) ← collect w input "" [] [];
  quantile_cutoff ← Np.quantile scores (fltr_threshold w);
  partition_window quantile_cutoff (zip lines scores) file 0%nat w.

(** ** Heap-growth policy: the handler of [BeagleHeapError] *)

(** [int(self.heap_size.replace('g',''))] *)
Definition heap_value (heap : string) : result Z :=
  Py.int (Py.remove "g"%char heap).

(** The body of [except BeagleHeapError], the same in [run] and in
    [filter_window]. *)
Definition increase_heap (w : Watcher) : result Watcher :=
  old_heap_size ← heap_value (heap_size w);
  Ret (set_heap_size (Py.str (old_heap_size + 10) +:+ "g") w).

(** ** Recovery Controller and Output Stitcher: [filter_window], [run] *)

(** The filtering loop of [filter_window]: one iteration per invocation of
    the job, whose events are the head of [traces]; the invocations not
    consumed are returned. *)
Fixpoint filter_loop (traces : list trace) (w : Watcher) (env : World)
  : outcome unit * Watcher * World * list trace :=
  match traces with
  | [] => (None, w, env, [])
  | events :: traces' =>
      match split_out_current_window w with
      | Raise e => (Some (Raise e), w, env, traces)
      | Ret (file, _, w) =>
          let w := set_current_vcf file w in
          match watch_beagle events w env with
          | (Some (Ret true), w, env) => (Some (Ret ()), w, env, traces')
          | (Some (Ret false), w, env) => filter_loop traces' w env
          | (Some (Raise BeagleTimeoutError), w, env) =>
              (* filter the current vcf *)
              filter_loop traces' w env
          | (Some (Raise BeagleHeapError), w, env) =>
              (* increase the heap *)
              match increase_heap w with
              | Ret w => filter_loop traces' w env
              | Raise e => (Some (Raise e), w, env, traces')
              end
          | (Some (Raise e), w, env) => (Some (Raise e), w, env, traces')
          | (None, w, env) => (None, w, env, traces')
          end
      end
  end.

(** [print] of every line of a sequence, in order. *)
Definition print_all (lines : list string) (file : string) : string :=
  foldl (fun file line => Py.print line file) file lines.

(** The reassembly of [filter_window], with the old dataset current again:
    the text written to [filtered_vcf]. *)
Definition reassemble (w : Watcher) (good_window : string) : result string :=
  (* print the header and all SNPs up to the window *)
  window_start ← subscript (cur_window_start w);
  up_to ← current_vcf_lines w None None (Some (EndAt (window_start - 1))) true;
  let filtered_vcf := print_all up_to "" in
  (* print out the SNPs in the good window *)
  let good :=
    List.filter (fun line => negb (Py.startswith line "#"))
                (Py.readlines good_window) in
  let filtered_vcf := print_all good filtered_vcf in
  (* process the rest *)
  window_end ← subscript (cur_window_end w);
  rest ← current_vcf_lines w None (Some (window_end + 1)) (Some EndOpen) false;
  Ret (print_all rest filtered_vcf).

Definition filter_window (traces : list trace) (w : Watcher) (env : World)
  : outcome unit * Watcher * World * list trace :=
  let old_vcf := _current_vcf w in
  match filter_loop traces w env with
  | (Some (Ret _), w, env, traces') =>
      let good_window := _current_vcf w in
      let w := set_current_vcf old_vcf w in
      match reassemble w good_window with
      | Ret filtered_vcf =>
          (Some (Ret ()), set_current_vcf filtered_vcf w, env, traces')
      | Raise e => (Some (Raise e), w, env, traces')
      end
  | r => r
  end.

(** The loop of [run].  Every iteration consumes at least one recorded
    invocation, so [run] gives the loop as many iterations as there are. *)
Fixpoint run_loop (fuel : nat) (traces : list trace) (w : Watcher) (env : World)
  : outcome unit * Watcher * World :=
  match fuel, traces with
  | O, _ | _, [] => (None, w, env)
  | S fuel, events :: traces' =>
      match watch_beagle events w env with
      | (Some (Ret true), w, env) => (Some (Ret ()), w, env)
      | (Some (Ret false), w, env) => run_loop fuel traces' w env
      | (Some (Raise BeagleTimeoutError), w, env) =>
          (* filter the current vcf *)
          match filter_window traces' w env with
          | (Some (Ret _), w, env, traces'') => run_loop fuel traces'' w env
          | (r, w, env, _) => (r, w, env)
          end
      | (Some (Raise BeagleHeapError), w, env) =>
          (* increase the heap *)
          match increase_heap w with
          | Ret w => run_loop fuel traces' w env
          | Raise e => (Some (Raise e), w, env)
          end
      | (Some (Raise e), w, env) => (Some (Raise e), w, env)
      | (None, w, env) => (None, w, env)
      end
  end.

Definition run (traces : list trace) (w : Watcher) (env : World)
  : outcome unit * Watcher * World :=
  run_loop (length traces) traces w env.

(** ** A concrete configuration, for the examples *)

(** [fltr_field_type=int]: scores read as integers. *)
Definition int_score (v : string) : result Q := inject_Z <$> Py.int v.

(** [Watcher(vcf, out_prefix, heap_size=.., timeout=.., check_every=..,
    fltr_field=.., fltr_field_type=int, fltr_threshold=..)], with a locus
    store. *)
Definition new_watcher (vcf out : string) (heap : string) (t every : Z)
    (field : string) (threshold : Q) : Watcher :=
  {| input_vcf := "input.vcf.gz"; _current_vcf := vcf; out_prefix := out;
     heap_size := heap; timeout := t; check_every := every;
     total_waiting := 0; num_reference_samples := None;
     cur_window_chrom := None; cur_window_start := None;
     cur_window_end := None; cur_window_num_markers := None;
     fltr_field := field; fltr_field_type := int_score;
     fltr_threshold := threshold; process := None; loci := Some [] |}.

Definition empty_world : World := {| fs := ∅; spawned := []; killed := [] |}.

(** The text of a dataset given by its lines. *)
Definition text_of (lines : list string) : string := print_all lines "".

(** A record line: CHROM, POS, ID, REF, ALT, QUAL, FILTER, INFO. *)
Definition record_line (chrom pos id info : string) : string :=
  chrom +:+ String tab (pos +:+ String tab (id +:+ String tab
    ("A" +:+ String tab ("G" +:+ String tab ("50" +:+ String tab
      ("PASS" +:+ String tab info)))))).

(** ** Observations used in the statements *)

Definition head_char (s : string) : option ascii :=
  match s with
  | EmptyString => None
  | String c _ => Some c
  end.

Fixpoint last_char (s : string) : option ascii :=
  match s with
  | EmptyString => None
  | String c EmptyString => Some c
  | String _ s' => last_char s'
  end.

(** A line with no whitespace at either end. *)
Definition trimmed (s : string) : Prop :=
  (forall c, head_char s = Some c -> Py.isspace c = false) /\
  (forall c, last_char s = Some c -> Py.isspace c = false).

(** What the supervisor never assigns: everything but the stall counter,
    the window tracker and the process handle. *)
Definition supervisor_frame (w w' : Watcher) : Prop :=
  input_vcf w' = input_vcf w /\ _current_vcf w' = _current_vcf w /\
  out_prefix w' = out_prefix w /\ heap_size w' = heap_size w /\
  timeout w' = timeout w /\ check_every w' = check_every w /\
  fltr_field w' = fltr_field w /\ fltr_field_type w' = fltr_field_type w /\
  fltr_threshold w' = fltr_threshold w /\ loci w' = loci w.





(** A record of the window with the score and the locus the filter reads
    from it: its attribute block carries the quality field exactly once. *)
Record scored_record : Type := mkScored {
  sr_line : string;
  sr_score : Q;
  sr_locus : Locus
}.


Definition is_header (line : string) : bool := Py.startswith line "#".





(** ** Sample data *)

Definition oom_line : string :=
  "ERROR: java.lang.OutOfMemoryError: Java heap space" +:+ Py.newline.

Definition window_line : string := "Window 1 (chr1:100-200)" +:+ Py.newline.

Definition vcf_header : list string :=
  ["##fileformat=VCFv4.2"; "#CHROM" +:+ String tab "POS"].

(** A dataset with one record before the window [chr1:100-200], three in
    it and one after it, and a watcher stalled on that window. *)
Definition sample_vcf : string :=
  text_of (vcf_header ++
           [record_line "chr1" "50" "." "VQSLOD=1";
            record_line "chr1" "100" "rs1" "DP=3;VQSLOD=2";
            record_line "chr1" "150" "." "VQSLOD=3";
            record_line "chr1" "160" "." "VQSLOD=9";
            record_line "chr1" "300" "." "VQSLOD=4"]).

Definition sample_watcher : Watcher :=
  set_cur_window (Some "chr1") (Some 100) (Some 200)
    (new_watcher sample_vcf "out" "5g" 60 1 "VQSLOD" (1 # 2)).

Definition sample_locus (pos : Z) (id : option string)
    (a : gmap string string) : Locus :=
  {| chromosome := "chr1"; start := pos; end_ := pos; feature_type := "SNP";
     source := "input.vcf.gz"; name := id; attrs := a |}.

Definition sample_scored : list scored_record :=
  [ {| sr_line := record_line "chr1" "100" "rs1" "DP=3;VQSLOD=2";
       sr_score := 2;
       sr_locus := sample_locus 100 (Some "rs1")
                     (<["VQSLOD" := "2"]> (<["DP" := "3"]> ∅)) |};
    {| sr_line := record_line "chr1" "150" "." "VQSLOD=3";
       sr_score := 3;
       sr_locus := sample_locus 150 None (<["VQSLOD" := "3"]> ∅) |};
    {| sr_line := record_line "chr1" "160" "." "VQSLOD=9";
       sr_score := 9;
       sr_locus := sample_locus 160 None (<["VQSLOD" := "9"]> ∅) |} ].

(** The same window with all scores tied. *)
Definition tied_vcf : string :=
  text_of (vcf_header ++
           [record_line "chr1" "50" "." "VQSLOD=7";
            record_line "chr1" "100" "rs1" "VQSLOD=7";
            record_line "chr1" "150" "." "VQSLOD=7";
            record_line "chr1" "300" "." "VQSLOD=7"]).

Definition tied_watcher : Watcher :=
  set_cur_window (Some "chr1") (Some 100) (Some 200)
    (new_watcher tied_vcf "out" "5g" 60 1 "VQSLOD" (1 # 20)).

(** The window [chr1:100-200] with a first record that lacks the quality
    field. *)
Definition unscored_vcf : string :=
  text_of (vcf_header ++
           [record_line "chr1" "100" "." "DP=10";
            record_line "chr1" "150" "rs2" "VQSLOD=5"]).

Definition unscored_watcher : Watcher :=
  set_cur_window (Some "chr1") (Some 100) (Some 200)
    (new_watcher unscored_vcf "out" "5g" 60 1 "VQSLOD" (1 # 20)).

(** ** The text of the current window: [cur_window] *)

(** A field inside an f-string: [None] prints as the text None. *)
Definition fmt {A : Type} (show : A -> string) (o : option A) : string :=
  from_option show "None" o.

Definition cur_window (w : Watcher) : string :=
  fmt id (cur_window_chrom w) +:+ ":" +:+
  fmt Py.str (cur_window_start w) +:+ "-" +:+ fmt Py.str (cur_window_end w).

(** ** The dataset handle by name: the [current_vcf] property

    The same property at the level of file names: what is assigned is a
    path or a temporary file, and the toolkit is run through command lines
    made by splitting a formatted text at the spaces. *)

Module Handle.

Inductive handle : Type :=
| Path (name : string)
| NamedTemporaryFile (name : string).

(** [s.endswith(suffix)] *)
Fixpoint endswith (s suffix : string) : bool :=
  if String.eqb s suffix then true
  else match s with
       | EmptyString => false
       | String _ s' => endswith s' suffix
       end.

(** The getter: the [name] of a file object, or the path itself. *)
Definition current_vcf (h : handle) : string :=
  match h with
  | Path name => name
  | NamedTemporaryFile name => name
  end.

(** [f'bcftools view {filename} -Oz -o {out}'.split(' ')] *)
Definition compress_command (filename out : string) : list string :=
  Py.split " "%char ("bcftools view " +:+ filename +:+ " -Oz -o " +:+ out).

(** [f'bcftools index {name}'.split(' ')] *)
Definition index_command (name : string) : list string :=
  Py.split " "%char ("bcftools index " +:+ name).

(** [_index_current_vcf]: the command it runs, if any. *)
Definition _index_current_vcf (h : handle) (exists_ : gset string)
  : list (list string) :=
  if decide ((current_vcf h +:+ ".csi") ∈ exists_) then []
  else [index_command (current_vcf h)].

(** The setter: the handle stored and the commands run.  [tmp] is the name
    the temporary file gets before its suffix. *)
Definition set_current_vcf (new_value : handle) (tmp : string)
    (exists_ : gset string) : handle * list (list string) :=
  let filename := current_vcf new_value in
  let '(new_bgzip, compress) :=
    if negb (endswith filename ".gz")
    then let new_bgzip := NamedTemporaryFile (tmp +:+ ".vcf.gz") in
         (new_bgzip, [compress_command filename (current_vcf new_bgzip)])
    else (new_value, []) in
  (new_bgzip, compress ++ _index_current_vcf new_bgzip exists_).

End Handle.

(** ** More observations *)

(** Every character of a text is of a class. *)
Fixpoint all_chars (p : ascii -> bool) (s : string) : bool :=
  match s with
  | EmptyString => true
  | String c s' => p c && all_chars p s'
  end.

(** The text does not go on with a character of the class. *)
Definition stops (p : ascii -> bool) (s : string) : Prop :=
  match s with
  | EmptyString => True
  | String c _ => p c = false
  end.

(** How often a character occurs in a text. *)
Fixpoint count_char (c : ascii) (s : string) : nat :=
  match s with
  | EmptyString => 0
  | String a s' => (if Ascii.eqb a c then 1 else 0) + count_char c s'
  end.

(** An exception that [run] does not catch. *)
Definition uncaught (e : exn) : Prop :=
  e <> BeagleTimeoutError /\ e <> BeagleHeapError.

(** The conversion of the quality field fails the way [int] and [float]
    do, with a [ValueError]. *)
Definition converts_like_a_number (w : Watcher) : Prop :=
  forall v e, fltr_field_type w v = Raise e -> e = ValueError.

(** What the recovery loops never assign, and the locus store, which they
    only extend. *)
Definition controller_frame (w w' : Watcher) : Prop :=
  input_vcf w' = input_vcf w /\ out_prefix w' = out_prefix w /\
  timeout w' = timeout w /\ check_every w' = check_every w /\
  fltr_field w' = fltr_field w /\ fltr_field_type w' = fltr_field_type w /\
  fltr_threshold w' = fltr_threshold w /\
  match loci w with
  | Some store => exists added, loci w' = Some (store ++ added)
  | None => loci w' = None
  end.

(** An invocation whose first read times out. *)
Definition silent_at_first (events : trace) : Prop :=
  match events with
  | TimeoutError :: _ => True
  | _ => False
  end.



(** * Properties *)

(** ** Text primitives *)

Lemma lstrip_head s c t : Py.lstrip s = String c t -> Py.isspace c = false.
Proof.
  induction s as [|a s IH]; simpl; [discriminate|].
  destruct (Py.isspace a) eqn:Ha; [exact IH|].
  intros [= <- _]. exact Ha.
Qed.

Lemma last_char_cons a s :
  s <> EmptyString -> last_char (String a s) = last_char s.
Proof. destruct s; [congruence | reflexivity]. Qed.

Lemma lstrip_last s :
  Py.lstrip s <> EmptyString -> last_char (Py.lstrip s) = last_char s.
Proof.
  induction s as [|a s IH]; simpl; [congruence|].
  destruct (Py.isspace a); [|reflexivity].
  intros Hne. rewrite (IH Hne). destruct s; [simpl in Hne; congruence | reflexivity].
Qed.

Lemma rstrip_last s c : last_char (Py.rstrip s) = Some c -> Py.isspace c = false.
Proof.
  induction s as [|a s IH]; simpl; [discriminate|].
  destruct (Py.rstrip s) as [|b r] eqn:Hr.
  - destruct (Py.isspace a) eqn:Ha; simpl; [discriminate|].
    intros [= <-]. exact Ha.
  - rewrite last_char_cons by discriminate. exact IH.
Qed.

Lemma strip_trimmed s : trimmed (Py.strip s).
Proof.
  unfold trimmed, Py.strip. split; intros c Hc.
  - destruct (Py.lstrip (Py.rstrip s)) as [|a t] eqn:Hl; [discriminate|].
    simpl in Hc. injection Hc as ->. exact (lstrip_head _ _ _ Hl).
  - destruct (Py.lstrip (Py.rstrip s)) as [|a t] eqn:Hl; [discriminate|].
    rewrite <- Hl in Hc. rewrite lstrip_last in Hc by (rewrite Hl; discriminate).
    exact (rstrip_last _ _ Hc).
Qed.

Lemma nonempty_true s : nonempty s = true <-> s <> EmptyString.
Proof. destruct s; simpl; split; congruence. Qed.

(** ** Record Stream Reader *)

(** C10.  Whatever the range, [current_vcf_lines] yields the toolkit's
    output lines stripped of leading and trailing whitespace, with the lines
    that are empty after stripping left out: every yielded line is non-empty
    and has no whitespace at either end, and each is the stripped form of a
    line the toolkit emitted. *)
Theorem current_vcf_lines_stripped
    (w : Watcher) (chromosome : option string) (start : option Z)
    (end_ : option end_arg) (header : bool) (yielded : list string) :
  current_vcf_lines w chromosome start end_ header = Ret yielded ->
  Forall (fun line => line <> EmptyString /\ trimmed line) yielded /\
  exists raw : list string,
    yielded = List.filter nonempty (map Py.strip raw) /\
    forall line, In line yielded -> exists r, In r raw /\ line = Py.strip r.
Proof.
  unfold current_vcf_lines.
  destruct (match start with Some s => Some s | None => cur_window_start w end)
    as [s|]; simpl; [|discriminate].
  intros [= <-].
  match goal with |- context [map Py.strip ?r] => set (raw := r) end.
  split.
  - apply List.Forall_forall. intros line Hin.
    apply List.filter_In in Hin as [Hin Hne].
    apply List.in_map_iff in Hin as [r [<- _]].
    split; [now apply nonempty_true | apply strip_trimmed].
  - exists raw. split; [reflexivity|].
    intros line Hin. apply List.filter_In in Hin as [Hin _].
    apply List.in_map_iff in Hin as [r [<- Hr]]. eauto.
Qed.

Lemma current_vcf_lines_stripped_witness :
  let w := sample_watcher in
  let yielded := vcf_header ++ map sr_line sample_scored in
  current_vcf_lines w None None None true = Ret yielded /\
  Forall (fun line => line <> EmptyString /\ trimmed line) yielded.
Proof.
  intros w yielded.
  assert (H : current_vcf_lines w None None None true = Ret yielded)
    by (vm_compute; reflexivity).
  split; [exact H|].
  exact (proj1 (current_vcf_lines_stripped w None None None true yielded H)).
Defined.

(** ** Line Grammar Parser *)

Ltac parse_cases :=
  unfold _parse_current_info, subscript;
  repeat match goal with
         | |- context [if ?b then _ else _] => destruct b
         | |- context [match ?o with Some _ => _ | None => _ end] =>
             destruct o as [[[? ?] ?]|] || destruct o as [?|]
         | |- context [Py.int ?s] => destruct (Py.int s) eqn:?
         | _ => progress cbn
         end.

Lemma int_raise s e : Py.int s = Raise e -> e = ValueError.
Proof. unfold Py.int. destruct (NilZero.int_of_string s); congruence. Qed.

(** What an accepted line changes: the window, a counter of the tracker,
    or nothing. *)
Lemma parse_ret line w w' :
  _parse_current_info line w = Ret w' ->
  (exists c s e, w' = set_cur_window c s e w) \/
  (exists n, w' = set_num_reference_samples n w) \/
  (exists n, w' = set_cur_window_num_markers n w) \/
  w' = w.
Proof.
  parse_cases; intros [= <-] || discriminate; eauto 10.
Qed.

Lemma parse_raise line w e :
  _parse_current_info line w = Raise e ->
  e = TypeError \/ e = ValueError \/ e = BeagleHeapError.
Proof.
  parse_cases; try discriminate; intros [= <-]; auto;
    repeat match goal with
           | H : Py.int _ = Raise ?e |- _ =>
               is_var e; pose proof (int_raise _ _ H); subst e
           end; auto.
Qed.

Lemma parse_frame line w w' :
  _parse_current_info line w = Ret w' ->
  supervisor_frame w w' /\ total_waiting w' = total_waiting w /\
  process w' = process w.
Proof.
  intros H. apply parse_ret in H.
  destruct H as [(c & s & e & ->)|[(n & ->)|[(n & ->)| ->]]];
    unfold supervisor_frame; cbn; tauto.
Qed.

Lemma frame_refl w : supervisor_frame w w.
Proof. unfold supervisor_frame; tauto. Qed.

Lemma frame_trans w1 w2 w3 :
  supervisor_frame w1 w2 -> supervisor_frame w2 w3 -> supervisor_frame w1 w3.
Proof. unfold supervisor_frame; intuition congruence. Qed.

Lemma frame_set_total_waiting n w : supervisor_frame w (set_total_waiting n w).
Proof. unfold supervisor_frame; cbn; tauto. Qed.

Lemma frame_set_process p w : supervisor_frame w (set_process p w).
Proof. unfold supervisor_frame; cbn; tauto. Qed.

Lemma fs_subset_refl (X : gset string) : X ⊆ X.
Proof. reflexivity. Qed.

#[local] Hint Resolve frame_refl fs_subset_refl : core.

(** ** Process Supervisor *)

Lemma remove_if_exists_fs path env p :
  p ∈ fs (remove_if_exists path env) <-> p ∈ fs env /\ p <> path.
Proof.
  unfold remove_if_exists. destruct (decide (path ∈ fs env)) as [Hin|Hout]; simpl.
  - rewrite elem_of_difference, elem_of_singleton. tauto.
  - split; [|tauto]. intros Hp. split; [exact Hp|]. intros ->. contradiction.
Qed.

Lemma remove_if_exists_rest path env :
  spawned (remove_if_exists path env) = spawned env /\
  killed (remove_if_exists path env) = killed env.
Proof. unfold remove_if_exists. case_decide; simpl; auto. Qed.

Lemma on_stall_fs w env p :
  p ∈ fs (on_stall w env) <->
  p ∈ fs env /\ p <> out_prefix w +:+ ".vcf.gz" /\ p <> out_prefix w +:+ ".log".
Proof.
  unfold on_stall. rewrite !remove_if_exists_fs.
  destruct (process w); simpl; tauto.
Qed.

Lemma on_stall_killed w env :
  killed (on_stall w env) =
  killed env ++ match process w with Some p => [p] | None => [] end.
Proof.
  unfold on_stall.
  rewrite !(proj2 (remove_if_exists_rest _ _)).
  destruct (process w); simpl; [reflexivity | now rewrite app_nil_r].
Qed.

Lemma on_stall_spawned w env : spawned (on_stall w env) = spawned env.
Proof.
  unfold on_stall.
  rewrite !(proj1 (remove_if_exists_rest _ _)).
  destruct (process w); reflexivity.
Qed.

(** How the monitoring loop can end, and what it leaves as it found. *)
Lemma watch_loop_inv events : forall w env o w' env',
  watch_loop events w env = (o, w', env') ->
  supervisor_frame w w' /\ spawned env' = spawned env /\
  match o with
  | Some (Ret b) =>
      b = true /\ process w' = None /\ killed env' = killed env /\
      fs env ⊆ fs env'
  | Some (Raise BeagleTimeoutError) =>
      process w' = process w /\ timeout w' <= total_waiting w' /\
      exists env0, env' = on_stall w' env0 /\ fs env ⊆ fs env0 /\
                   killed env0 = killed env
  | Some (Raise e) =>
      process w' = process w /\ killed env' = killed env /\
      fs env ⊆ fs env' /\
      (e = TypeError \/ e = ValueError \/ e = BeagleHeapError)
  | None => process w' = process w /\ killed env' = killed env /\
            fs env ⊆ fs env'
  end.
Proof.
  induction events as [|ev events IH]; intros w env o w' env';
    cbn [watch_loop].
  - intros [= <- <- <-]. auto using frame_refl.
  - destruct ev as [line| |path].
    + destruct line as [|c line].
      * intros [= <- <- <-]. cbn. auto 10 using frame_set_process.
      * destruct (_parse_current_info (String c line) w) as [w1|e] eqn:Hp.
        -- intros H. apply IH in H as (Hf & Hs & Ho).
           apply parse_frame in Hp as (Hf1 & _ & Hp1).
           assert (Hf' : supervisor_frame w w').
           { eapply frame_trans; [exact Hf1|].
             eapply frame_trans; [apply frame_set_total_waiting | exact Hf]. }
           split; [exact Hf'|]. split; [exact Hs|].
           cbn in Ho. rewrite Hp1 in Ho. exact Ho.
        -- intros [= <- <- <-]. apply parse_raise in Hp.
           split; [apply frame_refl|]. split; [reflexivity|].
           destruct Hp as [->|[->| ->]]; auto 10.
    + cbv zeta.
      set (w1 := set_total_waiting (total_waiting w + check_every w) w).
      destruct (timeout w1 <=? total_waiting w1) eqn:Ht.
      * intros [= <- <- <-]. apply Z.leb_le in Ht.
        split; [apply frame_set_total_waiting|].
        split; [apply on_stall_spawned|].
        split; [reflexivity|]. split; [exact Ht|]. exists env. auto.
      * intros H. apply IH in H as (Hf & Hs & Ho).
        split; [eapply frame_trans; [apply frame_set_total_waiting | exact Hf]|].
        split; [exact Hs|]. exact Ho.
    + intros H. apply IH in H as (Hf & Hs & Ho).
      split; [exact Hf|]. split; [exact Hs|].
      assert (Hsub : forall X : gset string, {[path]} ∪ fs env ⊆ X -> fs env ⊆ X).
      { intros X HX p Hp. apply HX, elem_of_union. now right. }
      destruct o as [[b|e]|]; cbn in Ho.
      * destruct Ho as (? & ? & ? & ?); auto.
      * destruct e;
          first [ destruct Ho as (? & ? & env0 & ? & ? & ?); solve [eauto 10]
                | destruct Ho as (? & ? & ? & ?); solve [auto] ].
      * destruct Ho as (? & ? & ?); auto.
Qed.

(** C6.  Whenever [watch_beagle] ends in a stall, neither
    [<out_prefix>.vcf.gz] nor [<out_prefix>.log] exists when the
    [BeagleTimeoutError] is raised, whatever the child wrote before; and
    every other path that existed when the job was started still does. *)
Theorem stall_removes_artifacts
    (events : trace) (w w' : Watcher) (env env' : World) :
  watch_beagle events w env = (Some (Raise BeagleTimeoutError), w', env') ->
  ((out_prefix w +:+ ".vcf.gz") ∉ fs env') /\
  ((out_prefix w +:+ ".log") ∉ fs env') /\
  forall p, p ∈ fs env ->
            p <> out_prefix w +:+ ".vcf.gz" -> p <> out_prefix w +:+ ".log" ->
            p ∈ fs env'.
Proof.
  unfold watch_beagle, create_subprocess_exec. intros H.
  apply watch_loop_inv in H as (Hf & _ & _ & _ & env0 & -> & Hsub & _).
  assert (Hout : out_prefix w' = out_prefix w).
  { destruct Hf as (_ & _ & Ho & _). exact Ho. }
  rewrite <- Hout. repeat split.
  - rewrite on_stall_fs. tauto.
  - rewrite on_stall_fs. tauto.
  - intros p Hp Ha Hb. apply on_stall_fs. cbn in Hsub. auto.
Qed.

Lemma stall_removes_artifacts_witness :
  let w := new_watcher "" "out" "5g" 2 1 "VQSLOD" (1 # 20) in
  let events := [ChildWrites "out.log"; ChildWrites "notes.txt";
                 Read window_line; ChildWrites "out.vcf.gz";
                 TimeoutError; TimeoutError] in
  exists w' env',
    watch_beagle events w empty_world =
      (Some (Raise BeagleTimeoutError), w', env') /\
    (("out" +:+ ".vcf.gz") ∉ fs env') /\ (("out" +:+ ".log") ∉ fs env').
Proof.
  intros w events.
  destruct (watch_beagle events w empty_world) as [[o w'] env'] eqn:H.
  assert (Ho : o = Some (Raise BeagleTimeoutError)).
  { apply (f_equal (fun r => fst (fst r))) in H. vm_compute in H.
    now symmetry. }
  subst o. exists w', env'. split; [reflexivity|].
  destruct (stall_removes_artifacts events w w' empty_world env' H)
    as (Ha & Hb & _).
  split; [exact Ha | exact Hb].
Defined.









(** The handle after an invocation: cleared when the job completed, still
    the child's in every other case. *)
Lemma handle_after_watch_beagle events w env o w' env' :
  watch_beagle events w env = (o, w', env') ->
  process w' = match o with
               | Some (Ret _) => None
               | _ => Some (length (spawned env))
               end.
Proof.
  unfold watch_beagle, create_subprocess_exec. intros H.
  apply watch_loop_inv in H as (_ & _ & Ho).
  destruct o as [[b|e]|]; [tauto| |tauto].
  destruct e; cbn in Ho; tauto.
Qed.

(** C9, at the failing inputs.  After a stall the handle still names the
    killed child, so that an interrupt signals it a second time; after an
    out-of-memory line it still names the child as well.  Only the natural
    exit clears it. *)
Theorem handle_survives_classified_failures :
  let w := new_watcher "" "out" "5g" 1 1 "VQSLOD" (1 # 20) in
  (exists w' env',
     watch_beagle [TimeoutError] w empty_world =
       (Some (Raise BeagleTimeoutError), w', env') /\
     process w' = Some 0%nat /\ killed env' = [0%nat] /\
     killed (fst (_sigint_handler w' env')) = [0%nat; 0%nat]) /\
  (exists w' env',
     watch_beagle [Read oom_line] w empty_world =
       (Some (Raise BeagleHeapError), w', env') /\
     process w' = Some 0%nat) /\
  (exists w' env',
     watch_beagle [Read EmptyString] w empty_world =
       (Some (Ret true), w', env') /\
     process w' = None).
Proof.
  intros w. repeat split; eexists; eexists; (split; [reflexivity|]);
    cbn; auto.
Qed.

(** ** Heap growth *)




(** [int(str(n)) == n] *)
Lemma int_str n : Py.int (Py.str n) = Ret n.
Proof.
  unfold Py.int, Py.str. rewrite NilZero.isi.
  - now rewrite DecimalZ.of_to.
  - destruct n; cbn; try discriminate.
    intros [= H]. now apply DecimalPos.Unsigned.to_uint_nonnil in H.
  - destruct n; cbn; try discriminate.
    intros [= H]. now apply DecimalPos.Unsigned.to_uint_nonnil in H.
Qed.




Lemma watch_beagle_frame events w env o w' env' :
  watch_beagle events w env = (o, w', env') -> supervisor_frame w w'.
Proof.
  unfold watch_beagle, create_subprocess_exec. intros H.
  apply watch_loop_inv in H as (Hf & _).
  exact (frame_trans _ _ _ (frame_set_process _ w) Hf).
Qed.

Lemma watch_beagle_heap events w env o w' env' :
  watch_beagle events w env = (o, w', env') -> heap_size w' = heap_size w.
Proof.
  intros H. apply watch_beagle_frame in H. unfold supervisor_frame in H. tauto.
Qed.














(** Scenario C, end to end: an out-of-memory line during a run with heap
    ["5g"], then a job that completes: the second invocation is spawned with
    [-Xmx15g]. *)
Example scenario_c :
  let w := new_watcher "" "out" "5g" 60 1 "VQSLOD" (1 # 20) in
  let '(o, w', env') := run [[Read oom_line]; [Read EmptyString]] w empty_world in
  o = Some (Ret ()) /\ map java_Xmx (spawned env') = ["-Xmx5g"; "-Xmx15g"].
Proof. vm_compute. split; reflexivity. Qed.

(** ** The loops and their fuel *)

Lemma filter_loop_rest traces : forall w env o w' env' rest,
  filter_loop traces w env = (o, w', env', rest) ->
  (length rest <= length traces)%nat.
Proof.
  induction traces as [|t traces IH]; intros w env o w' env' rest;
    cbn [filter_loop].
  - intros [= _ _ _ <-]. reflexivity.
  - destruct (split_out_current_window w) as [[[file d] w0]|];
      [|intros [= _ _ _ <-]; reflexivity].
    destruct (watch_beagle t (set_current_vcf file w0) env) as [[o1 w1] env1].
    assert (Hstep : forall w2 env2,
               filter_loop traces w2 env2 = (o, w', env', rest) ->
               (length rest <= length (t :: traces))%nat).
    { intros w2 env2 H. apply IH in H. cbn [length]. lia. }
    destruct o1 as [[[|]|e]|]; try (intros [= _ _ _ <-]; cbn [length]; lia).
    + apply Hstep.
    + destruct e; try (intros [= _ _ _ <-]; cbn [length]; lia).
      * apply Hstep.
      * destruct (increase_heap w1); [apply Hstep|].
        intros [= _ _ _ <-]; cbn [length]; lia.
Qed.

Lemma filter_window_rest traces w env o w' env' rest :
  filter_window traces w env = (o, w', env', rest) ->
  (length rest <= length traces)%nat.
Proof.
  unfold filter_window.
  destruct (filter_loop traces w env) as [[[o1 w1] env1] rest1] eqn:Hl.
  apply filter_loop_rest in Hl.
  destruct o1 as [[u|e]|]; try (intros [= _ _ _ <-]; exact Hl).
  destruct (reassemble _ _); intros [= _ _ _ <-]; exact Hl.
Qed.

(** Beyond the number of recorded invocations, more fuel changes nothing:
    [run] never stops for lack of it. *)
Lemma run_loop_enough fuel : forall fuel' traces w env,
  (length traces <= fuel)%nat -> (length traces <= fuel')%nat ->
  run_loop fuel traces w env = run_loop fuel' traces w env.
Proof.
  induction fuel as [|fuel IH]; intros fuel' traces w env H1 H2.
  - destruct traces; [|cbn in H1; lia]. now destruct fuel'.
  - destruct traces as [|t traces]; [now destruct fuel'|].
    destruct fuel' as [|fuel']; [cbn in H2; lia|].
    cbn [length] in H1, H2. cbn [run_loop].
    destruct (watch_beagle t w env) as [[o1 w1] env1].
    destruct o1 as [[[|]|e]|]; try reflexivity.
    + apply IH; lia.
    + destruct e; try reflexivity.
      * destruct (filter_window traces w1 env1) as [[[o2 w2] env2] rest2] eqn:Hf.
        apply filter_window_rest in Hf.
        destruct o2 as [[u|e]|]; try reflexivity. apply IH; lia.
      * destruct (increase_heap w1); [apply IH; lia | reflexivity].
Qed.

(** ** Quantile *)









(** ** Window Filter *)










(** What the sample window gives: the cutoff is 3, the record with score 2
    is dropped and the other two are written after the header. *)
Example sample_window_filtered :
  match split_out_current_window sample_watcher with
  | Ret (file, num_dropped, w') =>
      file = text_of (vcf_header ++
                      [record_line "chr1" "150" "." "VQSLOD=3";
                       record_line "chr1" "160" "." "VQSLOD=9"]) /\
      num_dropped = 1%nat /\
      (chromosome <$> default [] (loci w'), start <$> default [] (loci w'))
        = (["chr1"], [100])
  | Raise _ => False
  end.
Proof. vm_compute. repeat split; reflexivity. Qed.






(** C5, at the failing input.  The first record of the window has no
    quality field, the second has score 5.  The filter returns normally:
    the record without the field is written (it is paired with the score
    of the other one), and the record that has the score is neither
    written nor counted as dropped nor handed to the locus store. *)
Theorem missing_field_not_surfaced :
  split_out_current_window unscored_watcher =
    Ret (text_of (vcf_header ++ [record_line "chr1" "100" "." "DP=10"]),
         0%nat, unscored_watcher) /\
  line_scores unscored_watcher (record_line "chr1" "100" "." "DP=10") = Ret [] /\
  line_scores unscored_watcher (record_line "chr1" "150" "rs2" "VQSLOD=5")
    = Ret [5%Q] /\
  loci unscored_watcher = Some [].
Proof. vm_compute. repeat split; reflexivity. Qed.

(** ** Output Stitcher: the query before the window *)

Lemma in_region_empty chrom a b line :
  b < a -> in_region chrom a (Some b) line = false.
Proof.
  intros Hab. unfold in_region.
  destruct (Py.split tab line) as [|c [|p fields]]; try reflexivity.
  destruct (String.eqb c chrom); [|reflexivity].
  destruct (Py.int p) as [pos|]; [|reflexivity]. cbn.
  destruct (Z.leb_spec a pos); [|reflexivity].
  destruct (Z.leb_spec pos b); [lia | reflexivity].
Qed.

(** Whatever the dataset and the window, the first query of the reassembly
    yields header lines only: its range starts at the window's start and
    ends just before it. *)
Lemma region_before_window_is_empty w window_start yielded :
  cur_window_start w = Some window_start ->
  current_vcf_lines w None None (Some (EndAt (window_start - 1))) true
    = Ret yielded ->
  Forall (fun line => exists raw,
            Py.startswith raw "#" = true /\ line = Py.strip raw) yielded.
Proof.
  intros Hs. unfold current_vcf_lines. rewrite Hs. cbn.
  intros [= <-]. apply List.Forall_forall. intros line Hin.
  apply List.filter_In in Hin as [Hin Hne].
  apply List.in_map_iff in Hin as [raw [<- Hraw]].
  apply List.in_app_iff in Hraw as [Hraw|[<-|[]]]; [|discriminate].
  unfold bcftools_view in Hraw. apply List.filter_In in Hraw as [_ Hraw].
  exists raw. split; [|reflexivity].
  destruct (Py.startswith raw "#"); [reflexivity|].
  rewrite in_region_empty in Hraw by lia. discriminate.
Qed.

(** C2, at the failing input.  The old dataset has a record at position 50,
    before the window [chr1:100-200]; the retained records are those at 150
    and 160.  The reassembled text has no record before the window (the
    first query runs from the window's start to the position before it),
    and each record of the window is followed by an empty line (the line
    read from the file keeps its terminator and [print] adds one). *)
Theorem reassembly_loses_region_before_window :
  let good_window :=
    text_of (vcf_header ++ [record_line "chr1" "150" "." "VQSLOD=3";
                            record_line "chr1" "160" "." "VQSLOD=9"]) in
  current_vcf_lines sample_watcher None None (Some (EndAt 99)) true
    = Ret vcf_header /\
  current_vcf_lines sample_watcher None (Some 0) (Some (EndAt 99)) false
    = Ret [record_line "chr1" "50" "." "VQSLOD=1"] /\
  reassemble sample_watcher good_window =
    Ret (text_of (vcf_header ++
                  [record_line "chr1" "150" "." "VQSLOD=3"; "";
                   record_line "chr1" "160" "." "VQSLOD=9"; "";
                   record_line "chr1" "300" "." "VQSLOD=4"])).
Proof. vm_compute. repeat split; reflexivity. Qed.

(** C7, at the failing input.  All scores of the window are tied, so the
    filter drops nothing, and the job then completes on the window.  The
    stitched dataset is not the original one: the record at position 50,
    before the window, is gone. *)
Theorem noop_filtering_changes_dataset :
  (exists file, split_out_current_window tied_watcher
                = Ret (file, 0%nat, tied_watcher)) /\
  let '(o, w', _, _) :=
    filter_window [[Read EmptyString]] tied_watcher empty_world in
  o = Some (Ret ()) /\
  _current_vcf w' =
    text_of (vcf_header ++
             [record_line "chr1" "100" "rs1" "VQSLOD=7"; "";
              record_line "chr1" "150" "." "VQSLOD=7"; "";
              record_line "chr1" "300" "." "VQSLOD=7"]) /\
  _current_vcf tied_watcher =
    text_of (vcf_header ++
             [record_line "chr1" "50" "." "VQSLOD=7";
              record_line "chr1" "100" "rs1" "VQSLOD=7";
              record_line "chr1" "150" "." "VQSLOD=7";
              record_line "chr1" "300" "." "VQSLOD=7"]).
Proof.
  split.
  - eexists. vm_compute. reflexivity.
  - vm_compute. repeat split; reflexivity.
Qed.

(** * Further properties *)

(** ** Line Grammar Parser: what the patterns match *)

Lemma span_all p a : forall b,
  all_chars p a = true -> stops p b -> Re.span p (a +:+ b) = (a, b).
Proof.
  induction a as [|c a IH]; intros b Ha Hb.
  - destruct b as [|c b]; [reflexivity|]. cbn in Hb.
    change (Re.span p (String c b) = (EmptyString, String c b)).
    cbn [Re.span]. now rewrite Hb.
  - cbn in Ha. apply andb_prop in Ha as [Hc Ha].
    change (String c a +:+ b) with (String c (a +:+ b)).
    cbn [Re.span]. now rewrite Hc, (IH b Ha Hb).
Qed.

Lemma plus_all p a b :
  a <> EmptyString -> all_chars p a = true -> stops p b ->
  Re.plus p (a +:+ b) = Some (a, b).
Proof.
  intros Hne Ha Hb. unfold Re.plus. rewrite (span_all p a b Ha Hb).
  now destruct a.
Qed.

Lemma lit_app p : forall s, Re.lit p (p +:+ s) = Some s.
Proof.
  induction p as [|c p IH]; intros s; [now destruct s|].
  change (String c p +:+ s) with (String c (p +:+ s)).
  cbn [Re.lit]. now rewrite Ascii.eqb_refl.
Qed.

Lemma uint_digits d : all_chars Py.isdigit (NilEmpty.string_of_uint d) = true.
Proof. induction d; cbn; auto. Qed.

Lemma uint_text d :
  d <> Decimal.Nil ->
  NilZero.string_of_uint d = NilEmpty.string_of_uint d /\
  NilEmpty.string_of_uint d <> EmptyString.
Proof. destruct d; try congruence; intros _; split; easy. Qed.

(** The decimal text of a number that is not negative: digits, at least
    one. *)
Lemma str_digits n :
  0 <= n -> all_chars Py.isdigit (Py.str n) = true /\ Py.str n <> EmptyString.
Proof.
  intros Hn. unfold Py.str. destruct n as [|p|p]; [now split| |lia].
  change (Z.to_int (Z.pos p)) with (Decimal.Pos (Pos.to_uint p)).
  cbn [NilZero.string_of_int].
  destruct (uint_text _ (DecimalPos.Unsigned.to_uint_nonnil p)) as [-> Hne].
  split; [apply uint_digits | exact Hne].
Qed.

Lemma digit_not_space c : Py.isdigit c = true -> Py.isspace c = false.
Proof.
  destruct c as [[] [] [] [] [] [] [] []]; vm_compute; intros H;
    (reflexivity || discriminate H).
Qed.

Lemma digits_stop_space a b :
  a <> EmptyString -> all_chars Re.digit_or_comma a = true ->
  stops Py.isspace (a +:+ b).
Proof.
  destruct a as [|c a]; [congruence|]. intros _ Ha. cbn in Ha.
  change (Py.isspace c = false).
  apply andb_prop in Ha as [Hc _]. unfold Re.digit_or_comma in Hc.
  apply orb_prop in Hc as [Hc|Hc]; [now apply digit_not_space|].
  apply Ascii.eqb_eq in Hc as ->. reflexivity.
Qed.

Lemma digits_are_digits_or_commas a :
  all_chars Py.isdigit a = true -> all_chars Re.digit_or_comma a = true.
Proof.
  induction a as [|c a IH]; [reflexivity|]. intros H.
  cbn [all_chars] in H |- *. apply andb_prop in H as [Hc Ha].
  rewrite (IH Ha). unfold Re.digit_or_comma. now rewrite Hc.
Qed.

Lemma at_end_stops p tail :
  p "010"%char = false -> Re.at_end tail = true -> stops p tail.
Proof.
  intros Hp. destruct tail as [|c [|d tail]]; cbn; try easy.
  intros Hc. apply Ascii.eqb_eq in Hc as ->. exact Hp.
Qed.

Lemma window_matches K chrom S E rest :
  K <> EmptyString -> all_chars Py.isdigit K = true ->
  chrom <> EmptyString -> all_chars Re.not_colon chrom = true ->
  S <> EmptyString -> all_chars Py.isdigit S = true ->
  E <> EmptyString -> all_chars Py.isdigit E = true ->
  Re.window ("Window " +:+ K +:+ " (" +:+ chrom +:+ ":" +:+ S +:+ "-" +:+
             E +:+ ")" +:+ rest) = Some (chrom, S, E).
Proof.
  intros HK1 HK2 Hc1 Hc2 HS1 HS2 HE1 HE2. unfold Re.window.
  rewrite lit_app. cbn [mbind option_bind].
  rewrite (plus_all _ K _ HK1 HK2) by reflexivity. cbn [mbind option_bind].
  rewrite lit_app. cbn [mbind option_bind].
  rewrite (plus_all _ chrom _ Hc1 Hc2) by reflexivity. cbn [mbind option_bind].
  rewrite lit_app. cbn [mbind option_bind].
  rewrite (plus_all _ S _ HS1 HS2) by reflexivity. cbn [mbind option_bind].
  rewrite lit_app. cbn [mbind option_bind].
  rewrite (plus_all _ E _ HE1 HE2) by reflexivity. cbn [mbind option_bind].
  rewrite lit_app. reflexivity.
Qed.

Lemma startswith_app p s : Py.startswith (p +:+ s) p = true.
Proof.
  unfold Py.startswith. induction p as [|c p IH]; [now destruct s|].
  change (String c p +:+ s) with (String c (p +:+ s)).
  cbn [String.prefix]. now destruct (ascii_dec c c).
Qed.

(** X1.  A window announcement is read back: for a chromosome name without
    a colon and numbers that are not negative, the line
    [Window k (chrom:s-e)], whatever follows it, sets the tracker to that
    window, and [cur_window] prints the region again. *)
Theorem window_line_round_trip
    (k s e : Z) (chrom rest : string) (w : Watcher) :
  0 <= k -> 0 <= s -> 0 <= e ->
  chrom <> EmptyString -> all_chars Re.not_colon chrom = true ->
  exists w',
    _parse_current_info
      ("Window " +:+ Py.str k +:+ " (" +:+ chrom +:+ ":" +:+ Py.str s +:+
       "-" +:+ Py.str e +:+ ")" +:+ rest) w = Ret w' /\
    w' = set_cur_window (Some chrom) (Some s) (Some e) w /\
    cur_window w' = chrom +:+ ":" +:+ Py.str s +:+ "-" +:+ Py.str e.
Proof.
  intros Hk Hs He Hc1 Hc2.
  destruct (str_digits k Hk) as [Kd Kn].
  destruct (str_digits s Hs) as [Sd Sn].
  destruct (str_digits e He) as [Ed En].
  eexists. split; [|split; reflexivity].
  unfold _parse_current_info.
  match goal with |- context [Py.startswith ?l "Window"] =>
    change (Py.startswith l "Window") with true end.
  cbn match.
  rewrite (window_matches _ chrom _ _ rest Kn Kd Hc1 Hc2 Sn Sd En Ed).
  cbn [subscript mbind result_bind]. rewrite !int_str. reflexivity.
Qed.

Lemma window_line_round_trip_witness :
  let w := new_watcher "" "out" "5g" 60 1 "VQSLOD" (1 # 20) in
  0 <= 3 /\ 0 <= 100 /\ 0 <= 2000 /\
  "chr1" <> EmptyString /\ all_chars Re.not_colon "chr1" = true /\
  exists w',
    _parse_current_info
      ("Window " +:+ Py.str 3 +:+ " (" +:+ "chr1" +:+ ":" +:+ Py.str 100 +:+
       "-" +:+ Py.str 2000 +:+ ")" +:+ Py.newline) w = Ret w' /\
    w' = set_cur_window (Some "chr1") (Some 100) (Some 2000) w /\
    cur_window w' = "chr1" +:+ ":" +:+ Py.str 100 +:+ "-" +:+ Py.str 2000.
Proof.
  intros w.
  assert (H1 : 0 <= 3) by lia. assert (H2 : 0 <= 100) by lia.
  assert (H3 : 0 <= 2000) by lia.
  assert (H4 : "chr1" <> EmptyString) by discriminate.
  assert (H5 : all_chars Re.not_colon "chr1" = true) by reflexivity.
  repeat (split; [assumption|]).
  exact (window_line_round_trip 3 100 2000 "chr1" Py.newline w H1 H2 H3 H4 H5).
Defined.

(** X2.  The two counts are read back.  After [Reference samples:] and some
    whitespace, the decimal text of [n] (and nothing else but the line end)
    sets the reference-sample count to [n]; after [Study markers:], a text
    of digits and commas sets the marker count to the number its digits
    spell, the commas left out. *)
Theorem count_lines_round_trip
    (n m : Z) (ws markers tail : string) (w : Watcher) :
  0 <= n ->
  ws <> EmptyString -> all_chars Py.isspace ws = true ->
  markers <> EmptyString -> all_chars Re.digit_or_comma markers = true ->
  Py.int (Py.remove ","%char markers) = Ret m ->
  Re.at_end tail = true ->
  _parse_current_info ("Reference samples:" +:+ ws +:+ Py.str n +:+ tail) w
    = Ret (set_num_reference_samples (Some n) w) /\
  _parse_current_info ("Study markers:" +:+ ws +:+ markers +:+ tail) w
    = Ret (set_cur_window_num_markers (Some m) w).
Proof.
  intros Hn Hw1 Hw2 Hm1 Hm2 Hm Ht.
  destruct (str_digits n Hn) as [Nd Nn].
  split; unfold _parse_current_info.
  - match goal with |- context [Py.startswith ?l "Window"] =>
      change (Py.startswith l "Window") with false end.
    rewrite startswith_app. cbn match. unfold Re.reference_samples.
    rewrite lit_app. cbn [mbind option_bind].
    rewrite (plus_all _ ws _ Hw1 Hw2)
      by (apply digits_stop_space;
          [exact Nn | now apply digits_are_digits_or_commas]).
    cbn [mbind option_bind].
    rewrite (plus_all _ _ tail Nn Nd) by (now apply at_end_stops).
    cbn [mbind option_bind]. rewrite Ht.
    cbn [subscript mbind result_bind]. now rewrite int_str.
  - match goal with |- context [Py.startswith ?l "Window"] =>
      change (Py.startswith l "Window") with false;
      change (Py.startswith l "Reference samples:") with false end.
    rewrite startswith_app. cbn match. unfold Re.study_markers.
    rewrite lit_app. cbn [mbind option_bind].
    rewrite (plus_all _ ws _ Hw1 Hw2) by (now apply digits_stop_space).
    cbn [mbind option_bind].
    rewrite (plus_all _ _ tail Hm1 Hm2) by (now apply at_end_stops).
    cbn [mbind option_bind]. rewrite Ht.
    cbn [subscript mbind result_bind]. now rewrite Hm.
Qed.

Lemma count_lines_round_trip_witness :
  let w := new_watcher "" "out" "5g" 60 1 "VQSLOD" (1 # 20) in
  0 <= 1234 /\
  "   " <> EmptyString /\ all_chars Py.isspace "   " = true /\
  "12,345" <> EmptyString /\ all_chars Re.digit_or_comma "12,345" = true /\
  Py.int (Py.remove ","%char "12,345") = Ret 12345 /\
  Re.at_end Py.newline = true /\
  _parse_current_info
    ("Reference samples:" +:+ "   " +:+ Py.str 1234 +:+ Py.newline) w
    = Ret (set_num_reference_samples (Some 1234) w) /\
  _parse_current_info ("Study markers:" +:+ "   " +:+ "12,345" +:+ Py.newline) w
    = Ret (set_cur_window_num_markers (Some 12345) w).
Proof.
  intros w.
  assert (H1 : 0 <= 1234) by lia.
  assert (H2 : "   " <> EmptyString) by discriminate.
  assert (H3 : all_chars Py.isspace "   " = true) by reflexivity.
  assert (H4 : "12,345" <> EmptyString) by discriminate.
  assert (H5 : all_chars Re.digit_or_comma "12,345" = true) by reflexivity.
  assert (H6 : Py.int (Py.remove ","%char "12,345") = Ret 12345) by reflexivity.
  assert (H7 : Re.at_end Py.newline = true) by reflexivity.
  repeat (split; [assumption|]).
  exact (count_lines_round_trip 1234 12345 "   " "12,345" Py.newline w
           H1 H2 H3 H4 H5 H6 H7).
Defined.

Lemma subscript_raise {A} (m : option A) e : subscript m = Raise e -> e = TypeError.
Proof. destruct m; cbn; congruence. Qed.

(** X3.  The parser raises [BeagleHeapError] on exactly the lines that
    begin with the out-of-memory marker, whatever the tracker holds. *)
Theorem heap_error_iff_marker (line : string) (w : Watcher) :
  _parse_current_info line w = Raise BeagleHeapError <->
  Py.startswith line oom_marker = true.
Proof.
  split.
  - unfold _parse_current_info.
    destruct (Py.startswith line "Window").
    { destruct (subscript (Re.window line)) as [[[c s] e]|x] eqn:Hm; cbn.
      - destruct (Py.int s) eqn:Hs; cbn;
          [|apply int_raise in Hs; congruence].
        destruct (Py.int e) eqn:He; cbn;
          [discriminate | apply int_raise in He; congruence].
      - apply subscript_raise in Hm. congruence. }
    destruct (Py.startswith line "Reference samples:").
    { destruct (subscript (Re.reference_samples line)) as [n|x] eqn:Hm; cbn.
      - destruct (Py.int n) eqn:Hs; cbn;
          [discriminate | apply int_raise in Hs; congruence].
      - apply subscript_raise in Hm. congruence. }
    destruct (Py.startswith line "Study markers:").
    { destruct (subscript (Re.study_markers line)) as [n|x] eqn:Hm; cbn.
      - destruct (Py.int (Py.remove ","%char n)) eqn:Hs; cbn;
          [discriminate | apply int_raise in Hs; congruence].
      - apply subscript_raise in Hm. congruence. }
    destruct (Py.startswith line oom_marker); [reflexivity | discriminate].
  - intros H. unfold _parse_current_info. rewrite H.
    destruct line as [|c line]; [discriminate|].
    unfold Py.startswith, oom_marker in H. cbn [String.prefix] in H.
    destruct (ascii_dec "E" c) as [<-|]; [|discriminate].
    reflexivity.
Qed.

(** X4.  An accepted line changes the window tracker only: the dataset, the
    heap size, the thresholds, the stall counter, the process handle and
    the locus store are as before. *)
Theorem parser_touches_only_tracker (line : string) (w w' : Watcher) :
  _parse_current_info line w = Ret w' ->
  _current_vcf w' = _current_vcf w /\ heap_size w' = heap_size w /\
  timeout w' = timeout w /\ check_every w' = check_every w /\
  total_waiting w' = total_waiting w /\ process w' = process w /\
  loci w' = loci w.
Proof.
  intros H. apply parse_frame in H as (Hf & Ht & Hp).
  unfold supervisor_frame in Hf. tauto.
Qed.

Lemma parser_touches_only_tracker_witness :
  let w := new_watcher "" "out" "5g" 60 1 "VQSLOD" (1 # 20) in
  let w' := set_cur_window (Some "chr1") (Some 100) (Some 200) w in
  _parse_current_info window_line w = Ret w' /\
  _current_vcf w' = _current_vcf w /\ heap_size w' = heap_size w /\
  timeout w' = timeout w /\ check_every w' = check_every w /\
  total_waiting w' = total_waiting w /\ process w' = process w /\
  loci w' = loci w.
Proof.
  intros w w'.
  assert (H : _parse_current_info window_line w = Ret w') by reflexivity.
  split; [exact H|].
  exact (parser_touches_only_tracker window_line w w' H).
Defined.

(** ** Process Supervisor: one child, signalled only on a stall *)

(** X5.  An invocation spawns exactly one command, made of the heap size and
    the dataset current at its start.  It sends one kill signal, to that
    child, when it ends in a stall, and none otherwise; and unless it ends
    in a stall it removes no file. *)
Theorem one_child_per_invocation
    (events : trace) (w w' : Watcher) (env env' : World) (o : outcome bool) :
  watch_beagle events w env = (o, w', env') ->
  spawned env' = spawned env ++ [beagle_command w] /\
  (o = Some (Raise BeagleTimeoutError) ->
   killed env' = killed env ++ [length (spawned env)]) /\
  (o <> Some (Raise BeagleTimeoutError) ->
   killed env' = killed env /\ fs env ⊆ fs env').
Proof.
  unfold watch_beagle, create_subprocess_exec. intros H.
  apply watch_loop_inv in H as (_ & Hs & Ho). cbn in Hs.
  split; [exact Hs|]. split.
  - intros ->. destruct Ho as (Hp & _ & env0 & -> & _ & Hk).
    rewrite on_stall_killed, Hp, Hk. reflexivity.
  - intros Hne. destruct o as [[b|e]|]; cbn in Ho.
    + tauto.
    + destruct e; first [tauto | congruence].
    + tauto.
Qed.

Lemma one_child_per_invocation_witness :
  let w := new_watcher "" "out" "5g" 2 1 "VQSLOD" (1 # 20) in
  let events := [Read window_line; TimeoutError; TimeoutError] in
  exists w' env',
    watch_beagle events w empty_world =
      (Some (Raise BeagleTimeoutError), w', env') /\
    spawned env' = spawned empty_world ++ [beagle_command w] /\
    killed env' = killed empty_world ++ [length (spawned empty_world)].
Proof.
  intros w events.
  destruct (watch_beagle events w empty_world) as [[o w'] env'] eqn:H.
  assert (Ho : o = Some (Raise BeagleTimeoutError)).
  { apply (f_equal (fun r => fst (fst r))) in H. vm_compute in H.
    now symmetry. }
  subst o. exists w', env'. split; [reflexivity|].
  destruct (one_child_per_invocation events w w' empty_world env' _ H)
    as (Hs & Hk & _).
  split; [exact Hs | exact (Hk eq_refl)].
Defined.

(** X6.  The stall counter is not reset between invocations: once an
    invocation has ended in a stall, the next one ends in a stall as soon
    as its first read times out, whatever the job would have printed
    later. *)
Theorem stall_counter_carries_over
    (events later : trace) (w w1 : Watcher) (env env1 : World) :
  0 <= check_every w ->
  watch_beagle events w env = (Some (Raise BeagleTimeoutError), w1, env1) ->
  exists w2 env2,
    watch_beagle (TimeoutError :: later) w1 env1 =
      (Some (Raise BeagleTimeoutError), w2, env2) /\
    total_waiting w2 = total_waiting w1 + check_every w.
Proof.
  intros Hp H. unfold watch_beagle, create_subprocess_exec in H.
  apply watch_loop_inv in H as (Hf & _ & _ & Ht & _).
  destruct Hf as (_ & _ & _ & _ & Htm & Hce & _). cbn in Htm, Hce.
  unfold watch_beagle, create_subprocess_exec. cbn [watch_loop]. cbv zeta.
  match goal with |- context [if ?c then _ else _] =>
    assert (Hc : c = true) by (apply Z.leb_le; cbn; lia) end.
  rewrite Hc. eexists. eexists. split; [reflexivity|]. cbn. lia.
Qed.

Lemma stall_counter_carries_over_witness :
  let w := new_watcher "" "out" "5g" 3 1 "VQSLOD" (1 # 20) in
  let events := [TimeoutError; TimeoutError; TimeoutError] in
  0 <= check_every w /\
  exists w1 env1,
    watch_beagle events w empty_world =
      (Some (Raise BeagleTimeoutError), w1, env1) /\
    exists w2 env2,
      watch_beagle [TimeoutError; Read window_line] w1 env1 =
        (Some (Raise BeagleTimeoutError), w2, env2) /\
      total_waiting w2 = total_waiting w1 + check_every w.
Proof.
  intros w events.
  assert (H0 : 0 <= check_every w) by (cbn; lia).
  split; [exact H0|].
  destruct (watch_beagle events w empty_world) as [[o w1] env1] eqn:H.
  assert (Ho : o = Some (Raise BeagleTimeoutError)).
  { apply (f_equal (fun r => fst (fst r))) in H. vm_compute in H.
    now symmetry. }
  subst o. exists w1, env1. split; [reflexivity|].
  exact (stall_counter_carries_over events [Read window_line] w w1
           empty_world env1 H0 H).
Defined.

(** X7.  After an invocation that completed, the interrupt handler sends no
    signal: it leaves the world as it is and exits with status 1. *)
Theorem interrupt_after_completion
    (events : trace) (w w' : Watcher) (env env' : World) (b : bool) :
  watch_beagle events w env = (Some (Ret b), w', env') ->
  _sigint_handler w' env' = (env', 1) /\ killed env' = killed env.
Proof.
  intros H. pose proof (handle_after_watch_beagle _ _ _ _ _ _ H) as Hp.
  cbn in Hp. unfold _sigint_handler. rewrite Hp. split; [reflexivity|].
  unfold watch_beagle, create_subprocess_exec in H.
  apply watch_loop_inv in H as (_ & _ & _ & _ & Hk & _). exact Hk.
Qed.

Lemma interrupt_after_completion_witness :
  let w := new_watcher "" "out" "5g" 60 1 "VQSLOD" (1 # 20) in
  let events := [Read window_line; TimeoutError; Read EmptyString] in
  exists w' env',
    watch_beagle events w empty_world = (Some (Ret true), w', env') /\
    _sigint_handler w' env' = (env', 1) /\ killed env' = killed empty_world.
Proof.
  intros w events.
  destruct (watch_beagle events w empty_world) as [[o w'] env'] eqn:H.
  assert (Ho : o = Some (Ret true)).
  { apply (f_equal (fun r => fst (fst r))) in H. vm_compute in H.
    now symmetry. }
  subst o. exists w', env'. split; [reflexivity|].
  exact (interrupt_after_completion events w w' empty_world env' true H).
Defined.

(** ** Recovery Controller: what the loops keep and what leaves them *)

Lemma controller_frame_refl w : controller_frame w w.
Proof.
  unfold controller_frame. repeat split; try reflexivity.
  destruct (loci w) as [store|]; [|reflexivity].
  exists []. now rewrite app_nil_r.
Qed.

Lemma controller_frame_trans w1 w2 w3 :
  controller_frame w1 w2 -> controller_frame w2 w3 -> controller_frame w1 w3.
Proof.
  unfold controller_frame.
  intros (A1 & A2 & A3 & A4 & A5 & A6 & A7 & A8)
         (B1 & B2 & B3 & B4 & B5 & B6 & B7 & B8).
  repeat (split; [congruence|]).
  destruct (loci w1) as [store|].
  - destruct A8 as [a Ha]. rewrite Ha in B8. destruct B8 as [b Hb].
    exists (a ++ b). now rewrite Hb, List.app_assoc.
  - rewrite A8 in B8. exact B8.
Qed.

Lemma supervisor_controller_frame w w' :
  supervisor_frame w w' -> controller_frame w w'.
Proof.
  unfold supervisor_frame, controller_frame.
  intros (A1 & A2 & A3 & A4 & A5 & A6 & A7 & A8 & A9 & A10).
  repeat (split; [congruence|]). rewrite A10.
  destruct (loci w) as [store|]; [|reflexivity].
  exists []. now rewrite app_nil_r.
Qed.

Lemma controller_frame_by_fields w w' :
  input_vcf w' = input_vcf w -> out_prefix w' = out_prefix w ->
  timeout w' = timeout w -> check_every w' = check_every w ->
  fltr_field w' = fltr_field w -> fltr_field_type w' = fltr_field_type w ->
  fltr_threshold w' = fltr_threshold w -> loci w' = loci w ->
  controller_frame w w'.
Proof.
  intros A1 A2 A3 A4 A5 A6 A7 A8. unfold controller_frame.
  repeat (split; [assumption|]). rewrite A8.
  destruct (loci w) as [store|]; [|reflexivity].
  exists []. now rewrite app_nil_r.
Qed.

Lemma controller_frame_set_current_vcf text w :
  controller_frame w (set_current_vcf text w).
Proof. now apply controller_frame_by_fields. Qed.

Lemma controller_frame_increase_heap w w' :
  increase_heap w = Ret w' -> controller_frame w w'.
Proof.
  unfold increase_heap. destruct (heap_value (heap_size w)); [|discriminate].
  intros [= <-]. now apply controller_frame_by_fields.
Qed.

Lemma controller_frame_watch_beagle events w env o w' env' :
  watch_beagle events w env = (o, w', env') -> controller_frame w w'.
Proof.
  intros H. apply supervisor_controller_frame.
  exact (watch_beagle_frame _ _ _ _ _ _ H).
Qed.

Lemma controller_frame_add_locus l w w' :
  add_locus l w = Ret w' -> controller_frame w w'.
Proof.
  unfold add_locus. destruct (loci w) as [store|] eqn:Hs; [|discriminate].
  intros [= <-]. unfold controller_frame. cbn. rewrite Hs.
  repeat (split; [reflexivity|]). now exists [l].
Qed.

Lemma controller_frame_partition cutoff pairs : forall file k w file' k' w',
  partition_window cutoff pairs file k w = Ret (file', k', w') ->
  controller_frame w w'.
Proof.
  induction pairs as [|[line score] pairs IH]; intros file k w file' k' w';
    cbn [partition_window].
  - intros [= _ _ <-]. apply controller_frame_refl.
  - destruct (Qle_bool cutoff score); [apply IH|].
    destruct (make_locus w line) as [l|]; [|discriminate]. cbn.
    destruct (add_locus l w) as [w1|] eqn:Ha; [|discriminate]. cbn.
    intros H. apply IH in H. apply controller_frame_add_locus in Ha.
    exact (controller_frame_trans _ _ _ Ha H).
Qed.

Lemma controller_frame_split_out w file k w' :
  split_out_current_window w = Ret (file, k, w') -> controller_frame w w'.
Proof.
  unfold split_out_current_window.
  destruct (current_vcf_lines w None None None true) as [input|]; [|discriminate].
  cbn. destruct (collect w input "" [] []) as [[[f ls] sc]|]; [|discriminate].
  cbn. destruct (Np.quantile sc (fltr_threshold w)) as [c|]; [|discriminate].
  cbn. apply controller_frame_partition.
Qed.

Lemma controller_frame_filter_loop traces : forall w env o w' env' rest,
  filter_loop traces w env = (o, w', env', rest) -> controller_frame w w'.
Proof.
  induction traces as [|t traces IH]; intros w env o w' env' rest;
    cbn [filter_loop].
  - intros [= _ <- _ _]. apply controller_frame_refl.
  - destruct (split_out_current_window w) as [[[file d] w0]|] eqn:Hsp;
      [|intros [= _ <- _ _]; apply controller_frame_refl].
    apply controller_frame_split_out in Hsp.
    destruct (watch_beagle t (set_current_vcf file w0) env)
      as [[o1 w1] env1] eqn:Hw.
    apply controller_frame_watch_beagle in Hw.
    assert (H1 : controller_frame w w1).
    { eapply controller_frame_trans; [exact Hsp|].
      eapply controller_frame_trans;
        [apply controller_frame_set_current_vcf | exact Hw]. }
    assert (Hrec : forall w2 env2,
               controller_frame w1 w2 ->
               filter_loop traces w2 env2 = (o, w', env', rest) ->
               controller_frame w w').
    { intros w2 env2 H2 H. apply IH in H.
      eauto using controller_frame_trans. }
    destruct o1 as [[[|]|e]|]; try (intros [= _ <- _ _]; exact H1).
    + apply Hrec, controller_frame_refl.
    + destruct e; try (intros [= _ <- _ _]; exact H1).
      * apply Hrec, controller_frame_refl.
      * destruct (increase_heap w1) as [w2|] eqn:Hi.
        -- apply Hrec. now apply controller_frame_increase_heap.
        -- intros [= _ <- _ _]. exact H1.
Qed.

Lemma controller_frame_filter_window traces w env o w' env' rest :
  filter_window traces w env = (o, w', env', rest) -> controller_frame w w'.
Proof.
  unfold filter_window.
  destruct (filter_loop traces w env) as [[[o1 w1] env1] rest1] eqn:Hl.
  apply controller_frame_filter_loop in Hl.
  destruct o1 as [[u|e]|]; try (intros [= _ <- _ _]; exact Hl).
  destruct (reassemble _ _); intros [= _ <- _ _];
    eauto using controller_frame_trans, controller_frame_set_current_vcf.
Qed.

Lemma controller_frame_run_loop fuel : forall traces w env o w' env',
  run_loop fuel traces w env = (o, w', env') -> controller_frame w w'.
Proof.
  induction fuel as [|fuel IH]; intros traces w env o w' env';
    cbn [run_loop].
  - intros [= _ <- _]. apply controller_frame_refl.
  - destruct traces as [|t traces];
      [intros [= _ <- _]; apply controller_frame_refl|].
    destruct (watch_beagle t w env) as [[o1 w1] env1] eqn:Hw.
    apply controller_frame_watch_beagle in Hw.
    assert (Hrec : forall ts w2 env2,
               controller_frame w1 w2 ->
               run_loop fuel ts w2 env2 = (o, w', env') ->
               controller_frame w w').
    { intros ts w2 env2 H2 H. apply IH in H.
      eauto using controller_frame_trans. }
    destruct o1 as [[[|]|e]|]; try (intros [= _ <- _]; exact Hw).
    + apply Hrec, controller_frame_refl.
    + destruct e; try (intros [= _ <- _]; exact Hw).
      * destruct (filter_window traces w1 env1) as [[[o2 w2] env2] rest2] eqn:Hf.
        apply controller_frame_filter_window in Hf.
        destruct o2 as [[u|e]|];
          try (intros [= _ <- _]; eauto using controller_frame_trans).
        now apply Hrec.
      * destruct (increase_heap w1) as [w2|] eqn:Hi.
        -- apply Hrec. now apply controller_frame_increase_heap.
        -- intros [= _ <- _]. exact Hw.
Qed.

(** X8.  Whatever the invocations do, [run] leaves the configuration as it
    was (output prefix, stall threshold, poll interval, quality field and
    drop fraction) and never removes a locus from the store: the store
    afterwards is the store before, extended. *)
Theorem run_keeps_configuration
    (traces : list trace) (w w' : Watcher) (env env' : World)
    (o : outcome unit) (store : list Locus) :
  loci w = Some store ->
  run traces w env = (o, w', env') ->
  out_prefix w' = out_prefix w /\ timeout w' = timeout w /\
  check_every w' = check_every w /\ fltr_field w' = fltr_field w /\
  fltr_threshold w' = fltr_threshold w /\
  exists added, loci w' = Some (store ++ added).
Proof.
  intros Hs H. apply controller_frame_run_loop in H.
  unfold controller_frame in H. rewrite Hs in H. tauto.
Qed.

Lemma run_keeps_configuration_witness :
  let traces := [repeat TimeoutError 60; [Read EmptyString]; [Read EmptyString]] in
  exists o w' env',
    loci sample_watcher = Some [] /\
    run traces sample_watcher empty_world = (o, w', env') /\
    timeout w' = timeout sample_watcher /\
    exists added, loci w' = Some ([] ++ added).
Proof.
  intros traces.
  destruct (run traces sample_watcher empty_world) as [[o w'] env'] eqn:H.
  exists o, w', env'. split; [reflexivity|]. split; [reflexivity|].
  destruct (run_keeps_configuration traces sample_watcher w' empty_world env'
              o [] eq_refl H) as (_ & Ht & _ & _ & _ & Ha).
  split; [exact Ht | exact Ha].
Defined.

(** X9.  A stall before the job has announced any window is fatal: the
    filter has no window to query, and [run] ends with a [TypeError]
    instead of retrying. *)
Theorem stall_before_any_window
    (events next : trace) (later : list trace)
    (w w1 : Watcher) (env env1 : World) :
  watch_beagle events w env = (Some (Raise BeagleTimeoutError), w1, env1) ->
  cur_window_start w1 = None ->
  run (events :: next :: later) w env = (Some (Raise TypeError), w1, env1).
Proof.
  intros Hw Hs. unfold run. cbn [length run_loop]. rewrite Hw.
  unfold filter_window. cbn [filter_loop].
  unfold split_out_current_window, current_vcf_lines. rewrite Hs. reflexivity.
Qed.

Lemma stall_before_any_window_witness :
  let w := new_watcher sample_vcf "out" "5g" 2 1 "VQSLOD" (1 # 20) in
  let events := [Read ("beagle.jar (version 5.1)" +:+ Py.newline);
                 TimeoutError; TimeoutError] in
  exists w1 env1,
    watch_beagle events w empty_world =
      (Some (Raise BeagleTimeoutError), w1, env1) /\
    cur_window_start w1 = None /\
    run [events; [Read EmptyString]] w empty_world =
      (Some (Raise TypeError), w1, env1).
Proof.
  intros w events.
  destruct (watch_beagle events w empty_world) as [[o w1] env1] eqn:H.
  assert (Ho : o = Some (Raise BeagleTimeoutError)).
  { apply (f_equal (fun r => fst (fst r))) in H. vm_compute in H.
    now symmetry. }
  assert (Hs : cur_window_start w1 = None).
  { apply (f_equal (fun r => cur_window_start (snd (fst r)))) in H.
    vm_compute in H. now symmetry. }
  subst o. exists w1, env1. split; [reflexivity|]. split; [exact Hs|].
  exact (stall_before_any_window events [Read EmptyString] [] w w1
           empty_world env1 H Hs).
Defined.

(** X10.  A heap size that does not read as a number once its [g]s are
    removed (another unit, say) makes the first memory failure fatal: the
    handler raises [ValueError], in [run] as in the filtering loop. *)
Theorem heap_unit_must_be_g
    (events : trace) (later : list trace)
    (w w1 : Watcher) (env env1 : World) (e : exn) :
  heap_value (heap_size w) = Raise e ->
  watch_beagle events w env = (Some (Raise BeagleHeapError), w1, env1) ->
  run (events :: later) w env = (Some (Raise ValueError), w1, env1) /\
  increase_heap w1 = Raise ValueError.
Proof.
  intros He Hw. pose proof (watch_beagle_heap _ _ _ _ _ _ Hw) as Hh.
  assert (Hi : increase_heap w1 = Raise ValueError).
  { unfold increase_heap. rewrite Hh.
    unfold heap_value in *. rewrite (int_raise _ _ He) in He.
    now rewrite He. }
  split; [|exact Hi].
  unfold run. cbn [length run_loop]. now rewrite Hw, Hi.
Qed.

Lemma heap_unit_must_be_g_witness :
  let w := new_watcher "" "out" "512m" 60 1 "VQSLOD" (1 # 20) in
  exists w1 env1,
    heap_value (heap_size w) = Raise ValueError /\
    watch_beagle [Read oom_line] w empty_world =
      (Some (Raise BeagleHeapError), w1, env1) /\
    run [[Read oom_line]; [Read EmptyString]] w empty_world =
      (Some (Raise ValueError), w1, env1).
Proof.
  intros w.
  assert (He : heap_value (heap_size w) = Raise ValueError) by reflexivity.
  destruct (watch_beagle [Read oom_line] w empty_world) as [[o w1] env1] eqn:H.
  assert (Ho : o = Some (Raise BeagleHeapError)).
  { apply (f_equal (fun r => fst (fst r))) in H. vm_compute in H.
    now symmetry. }
  subst o. exists w1, env1. split; [exact He|]. split; [reflexivity|].
  exact (proj1 (heap_unit_must_be_g [Read oom_line] [[Read EmptyString]]
                  w w1 empty_world env1 ValueError He H)).
Defined.

(** The exceptions of the parts, none of them one that [run] catches. *)

Lemma index_raise {A} (l : list A) i e : Py.index l i = Raise e -> e = IndexError.
Proof. unfold Py.index. destruct (nth_error l i); congruence. Qed.

Lemma unpack_raise x e : unpack x = Raise e -> e = ValueError.
Proof.
  unfold unpack. destruct (Py.split "=" x) as [|k [|v [|z l]]]; congruence.
Qed.

Lemma info_scores_raise w items e :
  converts_like_a_number w ->
  info_scores w items = Raise e -> e = ValueError.
Proof.
  intros Hc. induction items as [|x items IH]; cbn [info_scores]; [discriminate|].
  destruct (unpack x) as [[k v]|e1] eqn:Hu; cbn;
    [|intros [= <-]; exact (unpack_raise _ _ Hu)].
  destruct (String.eqb k (fltr_field w)).
  - destruct (fltr_field_type w v) as [q|e1] eqn:Hq; cbn;
      [|intros [= <-]; exact (Hc _ _ Hq)].
    destruct (info_scores w items); cbn; [discriminate|].
    intros [= <-]. now apply IH.
  - cbn. destruct (info_scores w items); cbn; [discriminate|].
    intros [= <-]. now apply IH.
Qed.

Lemma line_scores_raise w line e :
  converts_like_a_number w ->
  line_scores w line = Raise e -> e = IndexError \/ e = ValueError.
Proof.
  intros Hc. unfold line_scores, info_fields.
  destruct (Py.index (Py.split tab line) 7) as [f|e1] eqn:Hi; cbn.
  - intros H. right. exact (info_scores_raise _ _ _ Hc H).
  - intros [= <-]. left. exact (index_raise _ _ _ Hi).
Qed.

Lemma collect_raise w input : forall file lines scores e,
  converts_like_a_number w ->
  collect w input file lines scores = Raise e ->
  e = IndexError \/ e = ValueError.
Proof.
  induction input as [|line input IH]; intros file lines scores e Hc;
    cbn [collect]; [discriminate|].
  destruct (Py.startswith line "#"); [now apply IH|].
  destruct (line_scores w line) as [here|e1] eqn:Hl; cbn.
  - now apply IH.
  - intros [= <-]. exact (line_scores_raise _ _ _ Hc Hl).
Qed.

Lemma quantile_raise a q e :
  Np.quantile a q = Raise e -> e = IndexError \/ e = ValueError.
Proof.
  unfold Np.quantile. destruct (negb _); [intros [= <-]; now right|].
  destruct a; [intros [= <-]; now left | discriminate].
Qed.

Lemma set_attrs_raise items : forall m e,
  set_attrs items m = Raise e -> e = ValueError.
Proof.
  induction items as [|x items IH]; intros m e; cbn [set_attrs]; [discriminate|].
  destruct (unpack x) as [[k v]|e1] eqn:Hu; cbn; [apply IH|].
  intros [= <-]. exact (unpack_raise _ _ Hu).
Qed.

Lemma make_locus_raise w line e :
  make_locus w line = Raise e -> e = IndexError \/ e = ValueError.
Proof.
  unfold make_locus.
  destruct (Py.index _ 0) as [c|e1] eqn:H0; cbn;
    [|intros [= <-]; left; exact (index_raise _ _ _ H0)].
  destruct (Py.index _ 1) as [p|e1] eqn:H1; cbn;
    [|intros [= <-]; left; exact (index_raise _ _ _ H1)].
  destruct (Py.int p) as [pos|e1] eqn:Hp; cbn;
    [|intros [= <-]; right; exact (int_raise _ _ Hp)].
  destruct (Py.index _ 2) as [i|e1] eqn:H2; cbn;
    [|intros [= <-]; left; exact (index_raise _ _ _ H2)].
  destruct (Py.index _ 7) as [f|e1] eqn:H7; cbn;
    [|intros [= <-]; left; exact (index_raise _ _ _ H7)].
  destruct (set_attrs _ _) as [a|e1] eqn:Ha; cbn; [discriminate|].
  intros [= <-]. right. exact (set_attrs_raise _ _ _ Ha).
Qed.

Lemma partition_raise cutoff pairs : forall file k w e,
  partition_window cutoff pairs file k w = Raise e -> uncaught e.
Proof.
  induction pairs as [|[line score] pairs IH]; intros file k w e;
    cbn [partition_window]; [discriminate|].
  destruct (Qle_bool cutoff score); [apply IH|].
  destruct (make_locus w line) as [l|e1] eqn:Hm; cbn.
  - unfold add_locus. destruct (loci w); cbn; [apply IH|].
    intros [= <-]. split; discriminate.
  - intros [= <-]. apply make_locus_raise in Hm as [->| ->]; split; discriminate.
Qed.

Lemma current_vcf_lines_raise w c s e h x :
  current_vcf_lines w c s e h = Raise x -> x = TypeError.
Proof.
  unfold current_vcf_lines.
  destruct (match s with Some s0 => Some s0 | None => cur_window_start w end);
    cbn; congruence.
Qed.

Lemma split_out_raise w e :
  converts_like_a_number w ->
  split_out_current_window w = Raise e -> uncaught e.
Proof.
  intros Hc. unfold split_out_current_window.
  destruct (current_vcf_lines w None None None true) as [input|e1] eqn:H1; cbn.
  2:{ intros [= <-]. rewrite (current_vcf_lines_raise _ _ _ _ _ _ H1).
      split; discriminate. }
  destruct (collect w input "" [] []) as [[[f ls] sc]|e1] eqn:H2; cbn.
  2:{ intros [= <-]. apply collect_raise in H2 as [->| ->]; auto;
        split; discriminate. }
  destruct (Np.quantile sc (fltr_threshold w)) as [c|e1] eqn:H3; cbn.
  2:{ intros [= <-]. apply quantile_raise in H3 as [->| ->]; split; discriminate. }
  apply partition_raise.
Qed.

Lemma reassemble_raise w good e : reassemble w good = Raise e -> e = TypeError.
Proof.
  unfold reassemble, current_vcf_lines.
  destruct (cur_window_start w) as [s|]; cbn; [|congruence].
  destruct (cur_window_end w) as [n|]; cbn; congruence.
Qed.

Lemma increase_heap_raise w e : increase_heap w = Raise e -> e = ValueError.
Proof.
  unfold increase_heap, heap_value.
  destruct (Py.int _) eqn:H; cbn; [discriminate|].
  intros [= <-]. exact (int_raise _ _ H).
Qed.

Lemma converts_frame w w' :
  controller_frame w w' -> converts_like_a_number w -> converts_like_a_number w'.
Proof.
  unfold controller_frame, converts_like_a_number.
  intros (_ & _ & _ & _ & _ & Hf & _) Hc v e. rewrite Hf. apply Hc.
Qed.

Lemma watch_beagle_raise events w env e w' env' :
  watch_beagle events w env = (Some (Raise e), w', env') ->
  e = BeagleTimeoutError \/ e = BeagleHeapError \/ uncaught e.
Proof.
  unfold watch_beagle, create_subprocess_exec. intros H.
  apply watch_loop_inv in H as (_ & _ & Ho).
  destruct e; auto; right; right; split; discriminate.
Qed.

Lemma filter_loop_uncaught traces : forall w env e w' env' rest,
  converts_like_a_number w ->
  filter_loop traces w env = (Some (Raise e), w', env', rest) -> uncaught e.
Proof.
  induction traces as [|t traces IH]; intros w env e w' env' rest Hc;
    cbn [filter_loop]; [discriminate|].
  destruct (split_out_current_window w) as [[[file d] w0]|e0] eqn:Hsp.
  2:{ intros [= <- _ _ _]. exact (split_out_raise _ _ Hc Hsp). }
  apply controller_frame_split_out in Hsp.
  destruct (watch_beagle t (set_current_vcf file w0) env)
    as [[o1 w1] env1] eqn:Hw.
  assert (Hc1 : converts_like_a_number w1).
  { apply controller_frame_watch_beagle in Hw.
    eapply converts_frame; [exact Hw|].
    eapply converts_frame; [apply controller_frame_set_current_vcf|].
    eapply converts_frame; [exact Hsp | exact Hc]. }
  destruct o1 as [[[|]|e1]|]; try discriminate.
  - now apply IH.
  - destruct (watch_beagle_raise _ _ _ _ _ _ Hw) as [->|[->|Hu]].
    + now apply IH.
    + destruct (increase_heap w1) as [w2|e2] eqn:Hi.
      * apply IH. apply controller_frame_increase_heap in Hi.
        exact (converts_frame _ _ Hi Hc1).
      * intros [= <- _ _ _]. rewrite (increase_heap_raise _ _ Hi).
        split; discriminate.
    + destruct e1; try (intros [= <- _ _ _]; exact Hu);
        destruct Hu; congruence.
Qed.

Lemma filter_window_uncaught traces w env e w' env' rest :
  converts_like_a_number w ->
  filter_window traces w env = (Some (Raise e), w', env', rest) -> uncaught e.
Proof.
  intros Hc. unfold filter_window.
  destruct (filter_loop traces w env) as [[[o1 w1] env1] rest1] eqn:Hl.
  destruct o1 as [[u|e1]|]; try discriminate.
  - destruct (reassemble _ _) as [f|e2] eqn:Hr; [discriminate|].
    intros [= <- _ _ _]. rewrite (reassemble_raise _ _ _ Hr). split; discriminate.
  - intros [= <- _ _ _]. exact (filter_loop_uncaught _ _ _ _ _ _ _ Hc Hl).
Qed.

Lemma run_loop_uncaught fuel : forall traces w env e w' env',
  converts_like_a_number w ->
  run_loop fuel traces w env = (Some (Raise e), w', env') -> uncaught e.
Proof.
  induction fuel as [|fuel IH]; intros traces w env e w' env' Hc;
    cbn [run_loop]; [discriminate|].
  destruct traces as [|t traces]; [discriminate|].
  destruct (watch_beagle t w env) as [[o1 w1] env1] eqn:Hw.
  assert (Hc1 : converts_like_a_number w1).
  { apply controller_frame_watch_beagle in Hw. exact (converts_frame _ _ Hw Hc). }
  destruct o1 as [[[|]|e1]|]; try discriminate.
  - now apply IH.
  - destruct (watch_beagle_raise _ _ _ _ _ _ Hw) as [->|[->|Hu]].
    + destruct (filter_window traces w1 env1) as [[[o2 w2] env2] rest2] eqn:Hf.
      destruct o2 as [[u|e2]|]; try discriminate.
      * apply IH. apply controller_frame_filter_window in Hf.
        exact (converts_frame _ _ Hf Hc1).
      * intros [= <- _ _]. exact (filter_window_uncaught _ _ _ _ _ _ _ Hc1 Hf).
    + destruct (increase_heap w1) as [w2|e2] eqn:Hi.
      * apply IH. apply controller_frame_increase_heap in Hi.
        exact (converts_frame _ _ Hi Hc1).
      * intros [= <- _ _]. rewrite (increase_heap_raise _ _ Hi).
        split; discriminate.
    + destruct e1; try (intros [= <- _ _]; exact Hu);
        destruct Hu; congruence.
Qed.

(** X11.  The two classified failures never leave [run]: when the
    conversion of the quality field fails with [ValueError] only (as [int]
    and [float] do), an exception that ends [run] is neither
    [BeagleTimeoutError] nor [BeagleHeapError], since a stall is always
    answered by filtering and a memory failure by a larger heap. *)
Theorem classified_failures_never_escape
    (traces : list trace) (w w' : Watcher) (env env' : World) (e : exn) :
  converts_like_a_number w ->
  run traces w env = (Some (Raise e), w', env') ->
  e <> BeagleTimeoutError /\ e <> BeagleHeapError.
Proof.
  intros Hc H. exact (run_loop_uncaught _ _ _ _ _ _ _ Hc H).
Qed.

Lemma int_score_converts_like_a_number v e :
  int_score v = Raise e -> e = ValueError.
Proof.
  unfold int_score. destruct (Py.int v) eqn:H; cbn; [discriminate|].
  intros [= <-]. exact (int_raise _ _ H).
Qed.

Lemma classified_failures_never_escape_witness :
  let w := new_watcher sample_vcf "out" "5g" 2 1 "VQSLOD" (1 # 20) in
  let traces := [[TimeoutError; TimeoutError]; [Read EmptyString]] in
  exists w' env',
    converts_like_a_number w /\
    run traces w empty_world = (Some (Raise TypeError), w', env') /\
    TypeError <> BeagleTimeoutError /\ TypeError <> BeagleHeapError.
Proof.
  intros w traces.
  assert (Hc : converts_like_a_number w).
  { intros v e. exact (int_score_converts_like_a_number v e). }
  destruct (run traces w empty_world) as [[o w'] env'] eqn:H.
  assert (Ho : o = Some (Raise TypeError)).
  { apply (f_equal (fun r => fst (fst r))) in H. vm_compute in H.
    now symmetry. }
  subst o. exists w', env'. split; [exact Hc|]. split; [reflexivity|].
  exact (classified_failures_never_escape traces w w' empty_world env'
           TypeError Hc H).
Defined.

Lemma run_loop_returns fuel : forall traces w env u w' env',
  run_loop fuel traces w env = (Some (Ret u), w', env') ->
  process w' = None.
Proof.
  induction fuel as [|fuel IH]; intros traces w env u w' env';
    cbn [run_loop]; [discriminate|].
  destruct traces as [|t traces]; [discriminate|].
  destruct (watch_beagle t w env) as [[o1 w1] env1] eqn:Hw.
  destruct o1 as [[[|]|e1]|]; try discriminate.
  - intros [= _ <- _]. exact (handle_after_watch_beagle _ _ _ _ _ _ Hw).
  - apply IH.
  - destruct e1; try discriminate.
    + destruct (filter_window traces w1 env1) as [[[o2 w2] env2] rest2].
      destruct o2 as [[v|e2]|]; try discriminate. apply IH.
    + destruct (increase_heap w1); [apply IH | discriminate].
Qed.

(** X12.  When [run] returns, the last job has completed and no child is
    left behind: the process handle is cleared, so that an interrupt
    afterwards signals nothing. *)
Theorem run_returns_without_child
    (traces : list trace) (w w' : Watcher) (env env' : World) :
  run traces w env = (Some (Ret ()), w', env') ->
  process w' = None /\ fst (_sigint_handler w' env') = env'.
Proof.
  intros H. apply run_loop_returns in H. unfold _sigint_handler.
  now rewrite H.
Qed.

Lemma run_returns_without_child_witness :
  let traces := [repeat TimeoutError 60; [Read EmptyString]; [Read EmptyString]] in
  exists w' env',
    run traces sample_watcher empty_world = (Some (Ret ()), w', env') /\
    process w' = None /\ fst (_sigint_handler w' env') = env'.
Proof.
  intros traces.
  destruct (run traces sample_watcher empty_world) as [[o w'] env'] eqn:H.
  assert (Ho : o = Some (Ret ())).
  { apply (f_equal (fun r => fst (fst r))) in H. vm_compute in H.
    now symmetry. }
  subst o. exists w', env'. split; [reflexivity|].
  exact (run_returns_without_child traces sample_watcher w' empty_world env' H).
Defined.

(** ** Window Filter: what the cutoff can and cannot do *)













Lemma split_length c s : length (Py.split c s) = S (count_char c s).
Proof.
  induction s as [|a s IH]; [reflexivity|]. cbn [Py.split count_char].
  destruct (Ascii.eqb a c); cbn [length Nat.add]; [now rewrite IH|].
  destruct (Py.split c s); cbn in IH |- *; [discriminate | exact IH].
Qed.

Lemma unpack_needs_one_equals x :
  count_char "="%char x <> 1%nat -> unpack x = Raise ValueError.
Proof.
  intros H. unfold unpack. pose proof (split_length "="%char x) as Hl.
  destruct (Py.split "="%char x) as [|k [|v [|z l]]]; try reflexivity.
  cbn in Hl. congruence.
Qed.

Lemma info_scores_fails w items x :
  In x items -> unpack x = Raise ValueError ->
  exists e, info_scores w items = Raise e.
Proof.
  intros Hin Hx. induction items as [|y items IH]; [destruct Hin|].
  cbn [info_scores]. destruct Hin as [->|Hin].
  - rewrite Hx. cbn. eauto.
  - destruct (unpack y) as [[k v]|e]; cbn; [|eauto].
    destruct (if String.eqb k (fltr_field w) then _ else _) as [here|e];
      cbn; [|eauto].
    destruct (IH Hin) as [e He]. rewrite He. cbn. eauto.
Qed.

Lemma collect_fails w input line : forall file lines scores,
  In line input -> is_header line = false ->
  (exists e, line_scores w line = Raise e) ->
  exists e, collect w input file lines scores = Raise e.
Proof.
  induction input as [|l input IH]; intros file lines scores Hin Hh He;
    [destruct Hin|].
  cbn [collect]. destruct Hin as [->|Hin].
  - unfold is_header in Hh. rewrite Hh. destruct He as [e He].
    rewrite He. cbn. eauto.
  - destruct (Py.startswith l "#"); [now apply IH|].
    destruct (line_scores w l) as [here|e]; cbn; [now apply IH | eauto].
Qed.

(** X15.  An attribute without a value stops the filter: when a record of
    the window has, in its attribute block, an item that does not hold
    exactly one [=] (a flag such as [DB], say), [split_out_current_window]
    raises instead of returning a filtered window. *)
Theorem flag_attribute_stops_filter
    (w : Watcher) (input : list string) (line info item : string) :
  current_vcf_lines w None None None true = Ret input ->
  In line input -> is_header line = false ->
  Py.index (Py.split tab line) 7 = Ret info ->
  In item (Py.split ";"%char info) ->
  count_char "="%char item <> 1%nat ->
  exists e, split_out_current_window w = Raise e.
Proof.
  intros Hin Hl Hh Hi Hit Hc.
  assert (Hs : exists e, line_scores w line = Raise e).
  { unfold line_scores, info_fields. rewrite Hi. cbn.
    exact (info_scores_fails w _ item Hit (unpack_needs_one_equals _ Hc)). }
  destruct (collect_fails w input line "" [] [] Hl Hh Hs) as [e He].
  exists e. unfold split_out_current_window. rewrite Hin. cbn.
  now rewrite He.
Qed.

Lemma flag_attribute_stops_filter_witness :
  let line := record_line "chr1" "150" "." "DB;VQSLOD=3" in
  let w := set_cur_window (Some "chr1") (Some 100) (Some 200)
             (new_watcher (text_of (vcf_header ++ [line])) "out" "5g" 60 1
                          "VQSLOD" (1 # 20)) in
  current_vcf_lines w None None None true = Ret (vcf_header ++ [line]) /\
  In line (vcf_header ++ [line]) /\ is_header line = false /\
  Py.index (Py.split tab line) 7 = Ret "DB;VQSLOD=3" /\
  In "DB" (Py.split ";"%char "DB;VQSLOD=3") /\
  count_char "="%char "DB" <> 1%nat /\
  exists e, split_out_current_window w = Raise e.
Proof.
  intros line w.
  assert (H1 : current_vcf_lines w None None None true = Ret (vcf_header ++ [line]))
    by (vm_compute; reflexivity).
  assert (H2 : In line (vcf_header ++ [line])) by (cbn; auto).
  assert (H3 : is_header line = false) by reflexivity.
  assert (H4 : Py.index (Py.split tab line) 7 = Ret "DB;VQSLOD=3")
    by reflexivity.
  assert (H5 : In "DB" (Py.split ";"%char "DB;VQSLOD=3")) by (cbn; auto).
  assert (H6 : count_char "="%char "DB" <> 1%nat) by (cbn; discriminate).
  repeat (split; [assumption|]).
  exact (flag_attribute_stops_filter w _ line _ "DB" H1 H2 H3 H4 H5 H6).
Defined.






(** ** Recovery Controller: a filter that drops nothing *)

Lemma info_scores_ext w w' items :
  fltr_field w' = fltr_field w -> fltr_field_type w' = fltr_field_type w ->
  info_scores w' items = info_scores w items.
Proof.
  intros Hf Ht. induction items as [|x items IH]; [reflexivity|].
  cbn [info_scores]. now rewrite Hf, Ht, IH.
Qed.

Lemma line_scores_ext w w' line :
  fltr_field w' = fltr_field w -> fltr_field_type w' = fltr_field_type w ->
  line_scores w' line = line_scores w line.
Proof.
  intros Hf Ht. unfold line_scores.
  destruct (info_fields line); cbn; [now apply info_scores_ext | reflexivity].
Qed.

Lemma collect_ext w w' input : forall file lines scores,
  fltr_field w' = fltr_field w -> fltr_field_type w' = fltr_field_type w ->
  collect w' input file lines scores = collect w input file lines scores.
Proof.
  induction input as [|line input IH]; intros file lines scores Hf Ht;
    [reflexivity|].
  cbn [collect]. destruct (Py.startswith line "#"); [now apply IH|].
  rewrite (line_scores_ext w w') by assumption.
  destruct (line_scores w line); cbn; [now apply IH | reflexivity].
Qed.

Lemma partition_count_ge cutoff pairs : forall file k w file' k' w',
  partition_window cutoff pairs file k w = Ret (file', k', w') ->
  (k <= k')%nat.
Proof.
  induction pairs as [|[line score] pairs IH]; intros file k w file' k' w';
    cbn [partition_window].
  - intros [= _ <- _]. lia.
  - destruct (Qle_bool cutoff score); [apply IH|].
    destruct (make_locus w line) as [l|]; [|discriminate]. cbn.
    destruct (add_locus l w) as [w1|]; [|discriminate]. cbn.
    intros H. apply IH in H. lia.
Qed.

(** A pass that drops nothing does the same on any other object. *)
Lemma partition_no_drop cutoff pairs : forall file k w file' w',
  partition_window cutoff pairs file k w = Ret (file', k, w') ->
  forall w2, partition_window cutoff pairs file k w2 = Ret (file', k, w2).
Proof.
  induction pairs as [|[line score] pairs IH]; intros file k w file' w';
    cbn [partition_window].
  - intros [= <- _] w2. reflexivity.
  - destruct (Qle_bool cutoff score).
    + intros H w2. exact (IH _ _ _ _ _ H w2).
    + destruct (make_locus w line) as [l|]; [|discriminate]. cbn.
      destruct (add_locus l w) as [w1|]; [|discriminate]. cbn.
      intros H. apply partition_count_ge in H. lia.
Qed.

Lemma split_out_no_drop_ext w w' file :
  _current_vcf w' = _current_vcf w ->
  cur_window_chrom w' = cur_window_chrom w ->
  cur_window_start w' = cur_window_start w ->
  cur_window_end w' = cur_window_end w ->
  fltr_field w' = fltr_field w -> fltr_field_type w' = fltr_field_type w ->
  fltr_threshold w' = fltr_threshold w ->
  split_out_current_window w = Ret (file, 0%nat, w) ->
  split_out_current_window w' = Ret (file, 0%nat, w').
Proof.
  intros A1 A2 A3 A4 A5 A6 A7. unfold split_out_current_window.
  assert (Hl : current_vcf_lines w' None None None true
               = current_vcf_lines w None None None true).
  { unfold current_vcf_lines. now rewrite A1, A2, A3, A4. }
  rewrite Hl. destruct (current_vcf_lines w None None None true) as [input|];
    [|discriminate]. cbn.
  rewrite (collect_ext w w') by assumption.
  destruct (collect w input "" [] []) as [[[f ls] sc]|]; [|discriminate]. cbn.
  rewrite A7. destruct (Np.quantile sc (fltr_threshold w)) as [c|];
    [|discriminate]. cbn.
  intros H. exact (partition_no_drop _ _ _ _ _ _ _ H w').
Qed.

(** The loop on a window file that the filter reproduces, while every job
    is silent at first and the counter is at the threshold. *)
Lemma filter_loop_no_progress traces : forall w env file,
  _current_vcf w = file ->
  split_out_current_window w = Ret (file, 0%nat, w) ->
  0 <= check_every w ->
  timeout w <= total_waiting w + check_every w ->
  Forall silent_at_first traces ->
  exists w' env',
    filter_loop traces w env = (None, w', env', []) /\
    _current_vcf w' = file.
Proof.
  induction traces as [|t traces IH]; intros w env file Hd Hsp Hp Ht Hsil.
  - exists w, env. split; [reflexivity | exact Hd].
  - apply Forall_cons in Hsil as [Ht1 Hsil].
    destruct t as [|[l| |path] t]; try destruct Ht1.
    cbn [filter_loop]. rewrite Hsp.
    unfold watch_beagle, create_subprocess_exec. cbn [watch_loop]. cbv zeta.
    match goal with |- context [if ?c then _ else _] =>
      assert (Hc : c = true) by (apply Z.leb_le; cbn; lia) end.
    rewrite Hc.
    match goal with |- context [filter_loop traces ?w1 ?env1] =>
      destruct (IH w1 env1 file) as (w' & env' & Hl & Hd')
    end.
    + cbn. reflexivity.
    + apply (split_out_no_drop_ext w); try reflexivity; try (cbn; congruence).
    + exact Hp.
    + cbn. lia.
    + exact Hsil.
    + exists w', env'. split; [exact Hl | exact Hd'].
Qed.

(** X17.  Filtering that drops nothing never ends a persistent stall.  Let
    the filter drop no record of the window (all scores tied, or a drop
    fraction of zero) and reproduce the window file when run on it again.
    Then, as long as every job is silent for its first poll interval,
    [filter_window] is still looping when the recorded invocations are
    used up, however many there are: it neither returns nor raises. *)
Theorem no_progress_never_ends
    (traces : list trace) (w : Watcher) (env : World) (file : string) :
  split_out_current_window w = Ret (file, 0%nat, w) ->
  split_out_current_window (set_current_vcf file w)
    = Ret (file, 0%nat, set_current_vcf file w) ->
  0 <= check_every w ->
  timeout w <= total_waiting w + check_every w ->
  Forall silent_at_first traces ->
  exists w' env', filter_window traces w env = (None, w', env', []).
Proof.
  intros H1 H2 Hp Ht Hsil. unfold filter_window.
  destruct traces as [|t traces].
  - exists w, env. reflexivity.
  - apply Forall_cons in Hsil as [Ht1 Hsil].
    destruct t as [|[l| |path] t]; try destruct Ht1.
    cbn [filter_loop]. rewrite H1.
    unfold watch_beagle, create_subprocess_exec. cbn [watch_loop]. cbv zeta.
    match goal with |- context [if ?c then _ else _] =>
      assert (Hc : c = true) by (apply Z.leb_le; cbn; lia) end.
    rewrite Hc.
    match goal with |- context [filter_loop traces ?w1 ?env1] =>
      destruct (filter_loop_no_progress traces w1 env1 file)
        as (w' & env' & Hl & _)
    end.
    + reflexivity.
    + apply (split_out_no_drop_ext (set_current_vcf file w));
        try reflexivity. exact H2.
    + exact Hp.
    + cbn. lia.
    + exact Hsil.
    + rewrite Hl. exists w', env'. reflexivity.
Qed.

Lemma no_progress_never_ends_witness :
  let file := text_of (vcf_header ++
                       [record_line "chr1" "100" "rs1" "VQSLOD=7";
                        record_line "chr1" "150" "." "VQSLOD=7"]) in
  let w := set_total_waiting 60 tied_watcher in
  let traces := repeat [TimeoutError; Read window_line] 5 in
  split_out_current_window w = Ret (file, 0%nat, w) /\
  split_out_current_window (set_current_vcf file w)
    = Ret (file, 0%nat, set_current_vcf file w) /\
  0 <= check_every w /\
  timeout w <= total_waiting w + check_every w /\
  Forall silent_at_first traces /\
  exists w' env', filter_window traces w empty_world = (None, w', env', []).
Proof.
  intros file w traces.
  assert (H1 : split_out_current_window w = Ret (file, 0%nat, w))
    by (vm_compute; reflexivity).
  assert (H2 : split_out_current_window (set_current_vcf file w)
               = Ret (file, 0%nat, set_current_vcf file w))
    by (vm_compute; reflexivity).
  assert (H3 : 0 <= check_every w) by (cbn; lia).
  assert (H4 : timeout w <= total_waiting w + check_every w) by (cbn; lia).
  assert (H5 : Forall silent_at_first traces) by (repeat constructor).
  repeat (split; [assumption|]).
  exact (no_progress_never_ends traces w empty_world file H1 H2 H3 H4 H5).
Defined.

(** ** Output Stitcher: the part before the window *)

(** X18.  Whatever the dataset and the window, the part of the stitched
    file that is meant to hold the records before the window holds none:
    the query that [filter_window] makes for it yields header lines only,
    its range running from the window's start to the position before it. *)
Theorem stitched_prefix_has_no_record
    (w : Watcher) (window_start : Z) (yielded : list string) :
  cur_window_start w = Some window_start ->
  current_vcf_lines w None None (Some (EndAt (window_start - 1))) true
    = Ret yielded ->
  Forall (fun line => exists raw,
            Py.startswith raw "#" = true /\ line = Py.strip raw) yielded.
Proof. apply region_before_window_is_empty. Qed.

Lemma stitched_prefix_has_no_record_witness :
  cur_window_start sample_watcher = Some 100 /\
  current_vcf_lines sample_watcher None None (Some (EndAt (100 - 1))) true
    = Ret vcf_header /\
  Forall (fun line => exists raw,
            Py.startswith raw "#" = true /\ line = Py.strip raw) vcf_header.
Proof.
  assert (H1 : cur_window_start sample_watcher = Some 100) by reflexivity.
  assert (H2 : current_vcf_lines sample_watcher None None
                 (Some (EndAt (100 - 1))) true = Ret vcf_header)
    by (vm_compute; reflexivity).
  split; [exact H1|]. split; [exact H2|].
  exact (stitched_prefix_has_no_record sample_watcher 100 vcf_header H1 H2).
Defined.

(** ** The dataset handle by name *)

Lemma endswith_app a : forall b suffix,
  Handle.endswith b suffix = true -> Handle.endswith (a +:+ b) suffix = true.
Proof.
  induction a as [|c a IH]; intros b suffix H; [exact H|].
  change (String c a +:+ b) with (String c (a +:+ b)).
  cbn [Handle.endswith]. destruct (String.eqb _ suffix); [reflexivity|].
  now apply IH.
Qed.

(** X19.  Whatever is assigned to [current_vcf], a path or a temporary
    file, compressed or not, the name read back afterwards ends in [.gz]. *)
Theorem current_vcf_is_always_compressed
    (new_value : Handle.handle) (tmp : string) (exists_ : gset string) :
  Handle.endswith
    (Handle.current_vcf (fst (Handle.set_current_vcf new_value tmp exists_)))
    ".gz" = true.
Proof.
  unfold Handle.set_current_vcf.
  destruct (Handle.endswith (Handle.current_vcf new_value) ".gz") eqn:H;
    cbn [negb fst Handle.current_vcf].
  - exact H.
  - apply endswith_app. reflexivity.
Qed.

Lemma count_char_app c a : forall b,
  count_char c (a +:+ b) = (count_char c a + count_char c b)%nat.
Proof.
  induction a as [|x a IH]; intros b; [reflexivity|].
  change (String x a +:+ b) with (String x (a +:+ b)).
  cbn [count_char]. rewrite IH. lia.
Qed.

Lemma split_no_sep c a : count_char c a = 0%nat -> Py.split c a = [a].
Proof.
  induction a as [|x a IH]; [reflexivity|]. cbn [count_char Py.split].
  destruct (Ascii.eqb x c); [discriminate|]. cbn. intros H. now rewrite (IH H).
Qed.

Lemma split_at_sep c a : forall b,
  count_char c a = 0%nat ->
  Py.split c (a +:+ String c b) = a :: Py.split c b.
Proof.
  induction a as [|x a IH]; intros b.
  - intros _. change (EmptyString +:+ String c b) with (String c b).
    cbn [Py.split]. now rewrite Ascii.eqb_refl.
  - change (String x a +:+ String c b) with (String x (a +:+ String c b)).
    cbn [count_char Py.split].
    destruct (Ascii.eqb x c); [discriminate|]. cbn. intros H.
    now rewrite (IH b H).
Qed.

(** X20.  The command lines are made by splitting at the spaces, so a name
    with a space in it is passed to the toolkit in pieces: the compress
    command has its six words, and the index command its three, exactly
    when the names hold no space; every space adds a word. *)
Theorem command_words (filename out : string) :
  length (Handle.compress_command filename out)
    = (6 + count_char " " filename + count_char " " out)%nat /\
  length (Handle.index_command out) = (3 + count_char " " out)%nat /\
  (count_char " " filename = 0%nat -> count_char " " out = 0%nat ->
   Handle.compress_command filename out
     = ["bcftools"; "view"; filename; "-Oz"; "-o"; out] /\
   Handle.index_command out = ["bcftools"; "index"; out]).
Proof.
  unfold Handle.compress_command, Handle.index_command.
  split; [|split].
  - rewrite split_length, !count_char_app. cbn [count_char Ascii.eqb Bool.eqb].
    cbn. lia.
  - rewrite split_length, !count_char_app. cbn. lia.
  - intros Hf Ho. split.
    + change ("bcftools view " +:+ filename +:+ " -Oz -o " +:+ out)
        with ("bcftools" +:+ String " " ("view" +:+ String " "
               (filename +:+ String " " ("-Oz" +:+ String " "
                 ("-o" +:+ String " " out))))).
      rewrite !split_at_sep by (reflexivity || assumption).
      now rewrite split_no_sep.
    + change ("bcftools index " +:+ out)
        with ("bcftools" +:+ String " " ("index" +:+ String " " out)).
      rewrite !split_at_sep by reflexivity.
      now rewrite split_no_sep.
Qed.
